(** * Source/Core/Core/PowerPC/MMU.h: the host access facade and the MMU's data model

    Shallow embedding of the declarations and inline member functions of
    [Core/PowerPC/MMU.h].  Unsigned machine integers are [Z] with the
    wrap-around of every cast written out; bit-fields are [Z.land] /
    [Z.shiftr] expressions.  The member functions that the header only
    declares ([HostIsRAMAddress], [ReadFromHardware], [WriteToHardware],
    [Memcheck]) appear as calls of a small program type, so that the order
    and the arguments of the calls made by the inline functions can be read
    off and interpreted over any implementation of them. *)

From Stdlib Require Import ZArith List Bool Lia.
From stdpp Require Import base option list gmap.
Import ListNotations.

#[local] Open Scope Z_scope.

(** ** Fixed-width integers *)

Definition cast_u8 (z : Z) : Z := z mod 2 ^ 8.
Definition cast_u32 (z : Z) : Z := z mod 2 ^ 32.

Definition is_u32 (z : Z) : Prop := 0 <= z < 2 ^ 32.
Definition is_u64 (z : Z) : Prop := 0 <= z < 2 ^ 64.

(** The access types [T] of the templates: [sizeof(T)] is 1, 2, 4 or 8
    ([make_unsigned_same_size] admits nothing else). *)
Inductive Width : Type := W8 | W16 | W32 | W64.

Definition sizeof (T : Width) : Z :=
  match T with W8 => 1 | W16 => 2 | W32 => 4 | W64 => 8 end.

Definition bits_of (T : Width) : Z := 8 * sizeof T.

(** [concept Size64 = (sizeof(T) == 8)] *)
Definition Size64 (T : Width) : bool := sizeof T =? 8.

(** ** Enumerations and result records *)

Inductive RequestedAddressSpace : Type :=
| Effective   (* whatever the current MMU state is *)
| Physical    (* as if the MMU was turned off *)
| Virtual.    (* specifically want MMU turned on, fails if off *)

Record ReadResult : Type := mkReadResult {
  rr_translated : bool;
  rr_value : Z
}.

Record WriteResult : Type := mkWriteResult {
  wr_translated : bool
}.

Inductive XCheckTLBFlag : Type :=
| NoException
| Read
| Write
| Opcode
| OpcodeNoException.

(** ** BAT table constants *)

Definition BAT_INDEX_SHIFT : Z := 17.
Definition BAT_PAGE_SIZE : Z := Z.shiftl 1 BAT_INDEX_SHIFT.
Definition BAT_PAGE_COUNT : Z := Z.shiftl 1 (32 - BAT_INDEX_SHIFT).
Definition BAT_MAPPED_BIT : Z := 0x1.
Definition BAT_PHYSICAL_BIT : Z := 0x2.
Definition BAT_WI_BIT : Z := 0x4.
(** [UINT32_C(~0x7)]: the complement taken in 32 bits. *)
Definition BAT_RESULT_MASK : Z := cast_u32 (Z.lnot 0x7).

(** [using BatTable = std::array<u32, BAT_PAGE_COUNT>] *)
Definition BatTable : Type := list Z.

Definition BatTable_wf (t : BatTable) : Prop :=
  Z.of_nat (length t) = BAT_PAGE_COUNT /\ Forall is_u32 t.

(** Storage of a table in bytes: [sizeof(BatTable)]. *)
Definition BatTable_bytes : Z := BAT_PAGE_COUNT * sizeof W32.

(** A value-initialised table, as the members [m_ibat_table] and
    [m_dbat_table] are before the first update. *)
Definition BatTable_zero : BatTable := replicate (Z.to_nat BAT_PAGE_COUNT) 0.

(** Modelled from the spec: the tables are indexed by the page number, the
    address bits from [BAT_INDEX_SHIFT] up (the lookup itself is in
    MMU.cpp, which is not among the sources). *)
Definition bat_index (address : Z) : Z := Z.shiftr address BAT_INDEX_SHIFT.

(** Modelled from the spec: an entry packs a translated physical address
    with the flag bits; the address is read back through
    [BAT_RESULT_MASK] and each flag through its bit. *)
Definition bat_pack (base : Z) (mapped physical wi : bool) : Z :=
  Z.lor base
    (Z.lor (if mapped then BAT_MAPPED_BIT else 0)
       (Z.lor (if physical then BAT_PHYSICAL_BIT else 0)
          (if wi then BAT_WI_BIT else 0))).

Definition bat_base (entry : Z) : Z := Z.land entry BAT_RESULT_MASK.
Definition bat_mapped (entry : Z) : bool := negb (Z.land entry BAT_MAPPED_BIT =? 0).
Definition bat_physical (entry : Z) : bool := negb (Z.land entry BAT_PHYSICAL_BIT =? 0).
Definition bat_wi (entry : Z) : bool := negb (Z.land entry BAT_WI_BIT =? 0).

Definition HW_PAGE_SIZE : Z := 4096.
Definition HW_PAGE_MASK : Z := HW_PAGE_SIZE - 1.
Definition HW_PAGE_INDEX_SHIFT : Z := 12.
Definition HW_PAGE_INDEX_MASK : Z := 0x3f.

(** ** TranslateAddressResult *)

Inductive TranslateAddressResultEnum : Type :=
| BAT_TRANSLATED
| PAGE_TABLE_TRANSLATED
| DIRECT_STORE_SEGMENT
| PAGE_FAULT.

(** The enumerators' values in the underlying [u8]. *)
Definition enum_value (r : TranslateAddressResultEnum) : Z :=
  match r with
  | BAT_TRANSLATED => 0
  | PAGE_TABLE_TRANSLATED => 1
  | DIRECT_STORE_SEGMENT => 2
  | PAGE_FAULT => 3
  end.

Record TranslateAddressResult : Type := mkTranslateAddressResult {
  tar_address : Z;
  tar_result : TranslateAddressResultEnum;
  tar_wi : bool
}.

Definition Success (r : TranslateAddressResult) : bool :=
  enum_value (tar_result r) <=? enum_value PAGE_TABLE_TRANSLATED.

(** ** EffectiveAddress *)

(** Modelled from the spec: Common/BitField.h is not among the sources.
    [BitField<position, bits, u32>] is the field of [bits] bits of the
    storage word that starts at bit [position], bit 0 being the least
    significant; this gives the four fields the widths the specification
    lists (12, 16, 6 and 4 bits). *)
Definition BitField (position bits : Z) (storage : Z) : Z :=
  Z.shiftr (Z.land storage (Z.shiftl (Z.ones bits) position)) position.

(** The union has one storage word, [Hex]; the other members are views
    of it. *)
Record EffectiveAddress : Type := mkEffectiveAddress { Hex : Z }.

Definition ea_offset (a : EffectiveAddress) : Z := BitField 0 12 (Hex a).
Definition ea_page_index (a : EffectiveAddress) : Z := BitField 12 16 (Hex a).
Definition ea_API (a : EffectiveAddress) : Z := BitField 22 6 (Hex a).
Definition ea_SR (a : EffectiveAddress) : Z := BitField 28 4 (Hex a).

(** ** Programs over the out-of-line member functions

    [MMU.h] defines the host facade inline and only declares the members
    it calls.  A [Prog R] is a terminating computation returning an [R]
    whose steps are those calls, in order; [msr_DR] is the load of
    [mmu.m_ppc_state.msr.DR]. *)

Inductive Prog (R : Type) : Type :=
| Ret (r : R)
| HostIsRAMAddress (address : Z) (space : RequestedAddressSpace) (k : bool -> Prog R)
| msr_DR (k : bool -> Prog R)
| ReadFromHardware (flag : XCheckTLBFlag) (U : Width) (never_translate : bool)
    (em_address : Z) (k : Z -> Prog R)
| WriteToHardware (flag : XCheckTLBFlag) (never_translate : bool)
    (em_address data size : Z) (k : unit -> Prog R)
| Memcheck (address var : Z) (write : bool) (size : Z) (k : unit -> Prog R).

Arguments Ret {R} r.
Arguments HostIsRAMAddress {R} address space k.
Arguments msr_DR {R} k.
Arguments ReadFromHardware {R} flag U never_translate em_address k.
Arguments WriteToHardware {R} flag never_translate em_address data size k.
Arguments Memcheck {R} address var write size k.

Fixpoint bind {A B : Type} (p : Prog A) (f : A -> Prog B) : Prog B :=
  match p with
  | Ret a => f a
  | HostIsRAMAddress address space k => HostIsRAMAddress address space (fun b => bind (k b) f)
  | msr_DR k => msr_DR (fun b => bind (k b) f)
  | ReadFromHardware flag U nt a k => ReadFromHardware flag U nt a (fun v => bind (k v) f)
  | WriteToHardware flag nt a d sz k => WriteToHardware flag nt a d sz (fun u => bind (k u) f)
  | Memcheck a v w sz k => Memcheck a v w sz (fun u => bind (k u) f)
  end.

Declare Scope prog_scope.
Delimit Scope prog_scope with prog.
Notation "x <- c ;; k" := (bind c (fun x => k))
  (at level 100, c at next level, right associativity) : prog_scope.
Notation "c ;;; k" := (bind c (fun _ => k))
  (at level 100, right associativity) : prog_scope.
#[local] Open Scope prog_scope.

(** The calls as one-step programs. *)
Definition call_HostIsRAMAddress (address : Z) (space : RequestedAddressSpace) : Prog bool :=
  HostIsRAMAddress address space Ret.
Definition load_msr_DR : Prog bool := msr_DR Ret.
Definition call_ReadFromHardware (flag : XCheckTLBFlag) (U : Width) (never_translate : bool)
    (em_address : Z) : Prog Z :=
  ReadFromHardware flag U never_translate em_address Ret.
Definition call_WriteToHardware (flag : XCheckTLBFlag) (never_translate : bool)
    (em_address data size : Z) : Prog unit :=
  WriteToHardware flag never_translate em_address data size Ret.
Definition call_Memcheck (address var : Z) (write : bool) (size : Z) : Prog unit :=
  Memcheck address var write size Ret.

(** [std::bit_cast<make_unsigned_same_size<decltype(var)>>(var)] for a
    [var] whose type has the width [V]: the unsigned integer of the same
    size with the same bits.  Values are given as integers, a negative one
    standing for its two's complement pattern.  The width is that of
    [decltype(var)], which the [auto] parameter leaves to the caller; it
    need not be the width of the access type [T]. *)
Definition bit_cast_unsigned (V : Width) (var : Z) : Z := var mod 2 ^ bits_of V.

(** ** The host access facade *)

Definition HostRead (T : Width) (address : Z) : Prog Z :=
  call_ReadFromHardware NoException T false address.

Definition HostTryRead (T : Width) (address : Z) (space : RequestedAddressSpace)
  : Prog (option ReadResult) :=
  is_ram <- call_HostIsRAMAddress address space ;;
  if negb is_ram then Ret None
  else
    match space with
    | Effective =>
        value <- call_ReadFromHardware NoException T false address ;;
        dr <- load_msr_DR ;;
        Ret (Some (mkReadResult dr value))
    | Physical =>
        value <- call_ReadFromHardware NoException T true address ;;
        Ret (Some (mkReadResult false value))
    | Virtual =>
        dr <- load_msr_DR ;;
        if negb dr then Ret None
        else
          value <- call_ReadFromHardware NoException T false address ;;
          Ret (Some (mkReadResult true value))
    end.

(** [HostWrite], overload [requires(!Size64<T>)], for a [var] whose type
    has the width [V]: [v] has the size of [decltype(var)], the access the
    size of [T]. *)
Definition HostWrite_small_auto (V T : Width) (var : Z) (address : Z) : Prog unit :=
  let v := bit_cast_unsigned V var in
  call_WriteToHardware NoException false address (cast_u32 v) (sizeof T).

(** The same overload called with a [var] of the access type [T]. *)
Definition HostWrite_small (T : Width) (var : Z) (address : Z) : Prog unit :=
  HostWrite_small_auto T T var address.

(** [HostWrite], overload [requires Size64<T>], for a [var] of a 64-bit
    type (the shift by 32 supposes one). *)
Definition HostWrite_Size64 (var : Z) (address : Z) : Prog unit :=
  let v := bit_cast_unsigned W64 var in
  call_WriteToHardware NoException false address (cast_u32 (Z.shiftr v 32)) 4 ;;;
  call_WriteToHardware NoException false (cast_u32 (address + sizeof W32)) (cast_u32 v) 4.

(** [HostWrite<T>] called with a [var] of the access type: the overload
    is chosen by [Size64<T>]. *)
Definition HostWrite (T : Width) (var : Z) (address : Z) : Prog unit :=
  if Size64 T then HostWrite_Size64 var address else HostWrite_small T var address.

(** [HostTryWrite], overload [requires(!Size64<T>)], for a [var] whose
    type has the width [V]. *)
Definition HostTryWrite_small_auto (V T : Width) (var : Z) (address : Z)
    (space : RequestedAddressSpace) : Prog (option WriteResult) :=
  let size := sizeof T in
  let v := bit_cast_unsigned V var in
  is_ram <- call_HostIsRAMAddress address space ;;
  if negb is_ram then Ret None
  else
    match space with
    | Effective =>
        call_WriteToHardware NoException false address (cast_u32 v) size ;;;
        dr <- load_msr_DR ;;
        Ret (Some (mkWriteResult dr))
    | Physical =>
        call_WriteToHardware NoException true address (cast_u32 v) size ;;;
        Ret (Some (mkWriteResult false))
    | Virtual =>
        dr <- load_msr_DR ;;
        if negb dr then Ret None
        else
          call_WriteToHardware NoException false address (cast_u32 v) size ;;;
          Ret (Some (mkWriteResult true))
    end.

(** The same overload called with a [var] of the access type [T]. *)
Definition HostTryWrite_small (T : Width) (var : Z) (address : Z)
    (space : RequestedAddressSpace) : Prog (option WriteResult) :=
  HostTryWrite_small_auto T T var address space.

(** [HostTryWrite], overload [requires Size64<T>]; its two calls of
    [HostTryWrite<u32>] pass a [u32]. *)
Definition HostTryWrite_Size64 (var : Z) (address : Z) (space : RequestedAddressSpace)
  : Prog (option WriteResult) :=
  let v := bit_cast_unsigned W64 var in
  result <- HostTryWrite_small W32 (cast_u32 (Z.shiftr v 32)) address space ;;
  match result with
  | None => Ret result
  | Some _ => HostTryWrite_small W32 (cast_u32 v) (cast_u32 (address + 4)) space
  end.

(** [HostTryWrite<T>] called with a [var] of the access type. *)
Definition HostTryWrite (T : Width) (var : Z) (address : Z) (space : RequestedAddressSpace)
  : Prog (option WriteResult) :=
  if Size64 T then HostTryWrite_Size64 var address space
  else HostTryWrite_small T var address space.

(** ** Routines for the CPU core

    [MMU::Read] and [MMU::Write]; the underscore keeps them apart from the
    enumerators [XCheckTLBFlag::Read] and [XCheckTLBFlag::Write]. *)

Definition Read_ (T : Width) (address : Z) : Prog Z :=
  var <- call_ReadFromHardware Read T false address ;;
  call_Memcheck address var false (sizeof T) ;;;
  Ret var.

(** [Write], overload [requires(!Size64<T>)], for a [var] whose type has
    the width [V]: [v] has the size of [decltype(var)], the access the
    size of [T].  [WriteFromJit] instantiates it with a [V] that is not
    [T]. *)
Definition Write_small_auto (V T : Width) (var : Z) (address : Z) : Prog unit :=
  let size := sizeof T in
  let v := bit_cast_unsigned V var in
  call_Memcheck address v true size ;;;
  call_WriteToHardware Write false address (cast_u32 v) size.

(** The same overload called with a [var] of the access type [T]. *)
Definition Write_small (T : Width) (var : Z) (address : Z) : Prog unit :=
  Write_small_auto T T var address.

(** [Write], overload [requires Size64<T>]. *)
Definition Write_Size64 (var : Z) (address : Z) : Prog unit :=
  let v := bit_cast_unsigned W64 var in
  call_Memcheck address v true 8 ;;;
  call_WriteToHardware Write false address (cast_u32 (Z.shiftr v 32)) 4 ;;;
  call_WriteToHardware Write false (cast_u32 (address + sizeof W32)) (cast_u32 v) 4.

(** [Write<T>] called with a [var] of the access type. *)
Definition Write_ (T : Width) (var : Z) (address : Z) : Prog unit :=
  if Size64 T then Write_Size64 var address else Write_small T var address.

(** ** Running a program over an implementation of the calls

    An implementation gives a state and a meaning to each call.
    [HostIsRAMAddress] is a query of the state, as its comment in the
    header says ("Returns whether a read or write to the given address will
    resolve to a RAM access in the given address space"); the accesses and
    the memory-breakpoint hook may change the state in any way. *)

Record Hardware : Type := mkHardware {
  hw_state : Type;
  hw_msr_DR : hw_state -> bool;
  hw_HostIsRAMAddress : Z -> RequestedAddressSpace -> hw_state -> bool;
  hw_ReadFromHardware : XCheckTLBFlag -> Width -> bool -> Z -> hw_state -> Z * hw_state;
  hw_WriteToHardware : XCheckTLBFlag -> bool -> Z -> Z -> Z -> hw_state -> hw_state;
  hw_Memcheck : Z -> Z -> bool -> Z -> hw_state -> hw_state
}.

(** A call that was made, with the answer it got. *)
Inductive Event : Type :=
| EvHostIsRAMAddress (address : Z) (space : RequestedAddressSpace) (answer : bool)
| EvReadFromHardware (flag : XCheckTLBFlag) (U : Width) (never_translate : bool)
    (em_address : Z) (value : Z)
| EvWriteToHardware (flag : XCheckTLBFlag) (never_translate : bool)
    (em_address data size : Z)
| EvMemcheck (address var : Z) (write : bool) (size : Z).

Record Outcome (S R : Type) : Type := mkOutcome {
  result : R;
  final : S;
  trace : list Event
}.
Arguments mkOutcome {S R} result final trace.
Arguments result {S R} o.
Arguments final {S R} o.
Arguments trace {S R} o.

Definition logged {S R : Type} (e : Event) (o : Outcome S R) : Outcome S R :=
  mkOutcome (result o) (final o) (e :: trace o).

Fixpoint run (H : Hardware) {R : Type} (p : Prog R) (s : hw_state H)
  : Outcome (hw_state H) R :=
  match p with
  | Ret r => mkOutcome r s []
  | HostIsRAMAddress address space k =>
      let b := hw_HostIsRAMAddress H address space s in
      logged (EvHostIsRAMAddress address space b) (run H (k b) s)
  | msr_DR k => run H (k (hw_msr_DR H s)) s
  | ReadFromHardware flag U nt a k =>
      let r := hw_ReadFromHardware H flag U nt a s in
      logged (EvReadFromHardware flag U nt a (fst r)) (run H (k (fst r)) (snd r))
  | WriteToHardware flag nt a d sz k =>
      logged (EvWriteToHardware flag nt a d sz)
        (run H (k tt) (hw_WriteToHardware H flag nt a d sz s))
  | Memcheck a v w sz k =>
      logged (EvMemcheck a v w sz) (run H (k tt) (hw_Memcheck H a v w sz s))
  end.

(** The memory accesses among the calls made. *)
Definition is_access (e : Event) : bool :=
  match e with
  | EvReadFromHardware _ _ _ _ _ | EvWriteToHardware _ _ _ _ _ => true
  | _ => false
  end.

Definition accesses (t : list Event) : list Event := List.filter is_access t.

(** ** The rest of the header *)

(** Return value of [MMU::JitCache_TranslateAddress()], with its three
    constructors: the defaulted one with the member initialisers,
    [explicit TranslateResult(u32 address_)] and
    [TranslateResult(bool from_bat_, u32 address_)]. *)
Record TranslateResult : Type := mkTranslateResult {
  tr_valid : bool;
  tr_translated : bool;
  tr_from_bat : bool;
  tr_address : Z
}.

Definition TranslateResult_default : TranslateResult :=
  mkTranslateResult false false false 0.

Definition TranslateResult_untranslated (address_ : Z) : TranslateResult :=
  mkTranslateResult true false false address_.

Definition TranslateResult_translated (from_bat_ : bool) (address_ : Z) : TranslateResult :=
  mkTranslateResult true true from_bat_ address_.

(** The values a caller can get hold of: what a constructor builds. *)
Inductive TranslateResult_built : TranslateResult -> Prop :=
| built_default : TranslateResult_built TranslateResult_default
| built_untranslated (address_ : Z) :
    TranslateResult_built (TranslateResult_untranslated address_)
| built_translated (from_bat_ : bool) (address_ : Z) :
    TranslateResult_built (TranslateResult_translated from_bat_ address_).

(** [make_atleast_u32<T>]: [u64] for [u64], [u32] for the narrower
    unsigned types. *)
Definition make_atleast_u32 (T : Width) : Width := if Size64 T then W64 else W32.

(** [ReadFromJit]: [mmu.Read<T>(address)], returned zero-extended, which
    leaves the unsigned value as it is. *)
Definition ReadFromJit (T : Width) (address : Z) : Prog Z := Read_ T address.

(** [WriteFromJit]: [mmu.Write<T>(var, address)] with [var] of type
    [make_atleast_u32<T>]. *)
Definition WriteFromJit (T : Width) (var : Z) (address : Z) : Prog unit :=
  if Size64 T then Write_Size64 var address
  else Write_small_auto (make_atleast_u32 T) T var address.

(** ** Observations on traces *)

(** What the host facade may do: ask [HostIsRAMAddress] and access the
    hardware in the mode [NoException]. *)
Definition host_event (e : Event) : bool :=
  match e with
  | EvHostIsRAMAddress _ _ _ => true
  | EvReadFromHardware NoException _ _ _ _ => true
  | EvWriteToHardware NoException _ _ _ _ => true
  | _ => false
  end.

(** A hardware write whose size is 1, 2 or 4 and whose data fits in that
    many bytes. *)
Definition write_fits (e : Event) : bool :=
  match e with
  | EvWriteToHardware _ _ _ data size =>
      ((size =? 1) || (size =? 2) || (size =? 4)) &&
      (0 <=? data) && (data <? 2 ^ (8 * size))
  | _ => true
  end.

(** The same call in another mode. *)
Definition with_flag (flag : XCheckTLBFlag) (e : Event) : Event :=
  match e with
  | EvReadFromHardware _ U nt a v => EvReadFromHardware flag U nt a v
  | EvWriteToHardware _ nt a d sz => EvWriteToHardware flag nt a d sz
  | _ => e
  end.

(** The same implementation with another reading of MSR.DR. *)
Definition with_msr_DR (H : Hardware) (dr : hw_state H -> bool) : Hardware :=
  mkHardware (hw_state H) dr (hw_HostIsRAMAddress H) (hw_ReadFromHardware H)
    (hw_WriteToHardware H) (hw_Memcheck H).

(** Whether [HostTryRead] and the narrow [HostTryWrite] go through: the
    address is RAM in the space, and for [Virtual] MSR.DR is on. *)
Definition host_try_permitted (H : Hardware) (address : Z) (space : RequestedAddressSpace)
    (s : hw_state H) : bool :=
  hw_HostIsRAMAddress H address space s &&
  match space with
  | Virtual => hw_msr_DR H s
  | Effective | Physical => true
  end.

(** The [never_translate] template argument the facade picks for a
    space. *)
Definition never_translate_of (space : RequestedAddressSpace) : bool :=
  match space with
  | Physical => true
  | Effective | Virtual => false
  end.

(** * The out-of-line members (MMU.cpp), modelled from the specification

    [MMU.h] declares [TranslateAddress], [TranslatePageAddress],
    [IsRAMAddress], [HostIsRAMAddress], [ReadFromHardware],
    [WriteToHardware], [GenerateDSIException] and [GenerateISIException];
    their bodies are not among the sources.  This module follows the
    specification's sections 4.2 (address translator), 4.3 (hardware
    access engine), 4.4 (host facade), 6 (interfaces) and 7 (errors). *)

Module MMU_cpp.

(** Modelled from the spec: the memory-manager collaborator of section 6,
    which is outside the sources: the extent of RAM, [IsMMIOAddress], the
    MMIO read handler and the hash locating a page-table entry group. *)
Record MemoryManager : Type := mkMemoryManager {
  ram_size : Z;
  IsMMIOAddress : Z -> bool;
  MMIO_Read : Width -> Z -> Z;
  pteg_hash : Z -> Z -> Z
}.

(** Modelled from the spec: a page-table entry as section 4.2 uses it: a
    validity bit, the abbreviated page index it is compared on, the
    physical page it maps to, the referenced and changed bits, and
    whether the page is write-through or cache-inhibited. *)
Record PTE : Type := mkPTE {
  pte_valid : bool;
  pte_api : Z;
  pte_rpn : Z;
  pte_referenced : bool;
  pte_changed : bool;
  pte_wi : bool
}.

(** Modelled from the spec: a segment register (section 4.2, step 3):
    either it describes a direct-store segment or it supplies the segment
    identifier that is hashed with the API. *)
Record SegmentRegister : Type := mkSegmentRegister {
  sr_direct_store : bool;
  sr_vsid : Z
}.

(** Modelled from the spec: the guest-visible faults of section 7 (a). *)
Inductive GuestException : Type :=
| DSI (effective_address : Z) (write : bool)
| ISI (effective_address : Z).

(** Modelled from the spec: the state the MMU works on: the
    translation-enable bits and segment registers of the CPU state, the
    two BAT tables the MMU owns, the page table and the RAM bytes held by
    the memory manager, the writes dispatched to MMIO, the guest
    exceptions raised and the diagnostics shown for unresolvable
    accesses. *)
Record Machine : Type := mkMachine {
  m_msr_DR : bool;
  m_msr_IR : bool;
  m_sr : list SegmentRegister;
  m_ibat_table : BatTable;
  m_dbat_table : BatTable;
  m_pagetable : gmap Z (list PTE);
  m_ram : gmap Z Z;
  m_mmio_writes : list (Z * Z * Z);
  m_exceptions : list GuestException;
  m_alerts : list Z
}.

Definition set_pagetable (pt : gmap Z (list PTE)) (m : Machine) : Machine :=
  mkMachine (m_msr_DR m) (m_msr_IR m) (m_sr m) (m_ibat_table m) (m_dbat_table m)
    pt (m_ram m) (m_mmio_writes m) (m_exceptions m) (m_alerts m).

Definition set_ram (ram : gmap Z Z) (m : Machine) : Machine :=
  mkMachine (m_msr_DR m) (m_msr_IR m) (m_sr m) (m_ibat_table m) (m_dbat_table m)
    (m_pagetable m) ram (m_mmio_writes m) (m_exceptions m) (m_alerts m).

Definition add_mmio_write (w : Z * Z * Z) (m : Machine) : Machine :=
  mkMachine (m_msr_DR m) (m_msr_IR m) (m_sr m) (m_ibat_table m) (m_dbat_table m)
    (m_pagetable m) (m_ram m) (w :: m_mmio_writes m) (m_exceptions m) (m_alerts m).

Definition add_exception (e : GuestException) (m : Machine) : Machine :=
  mkMachine (m_msr_DR m) (m_msr_IR m) (m_sr m) (m_ibat_table m) (m_dbat_table m)
    (m_pagetable m) (m_ram m) (m_mmio_writes m) (e :: m_exceptions m) (m_alerts m).

Definition add_alert (address : Z) (m : Machine) : Machine :=
  mkMachine (m_msr_DR m) (m_msr_IR m) (m_sr m) (m_ibat_table m) (m_dbat_table m)
    (m_pagetable m) (m_ram m) (m_mmio_writes m) (m_exceptions m) (address :: m_alerts m).

(** Modelled from the spec: the lookup-only probing modes of section
    4.2, step 5. *)
Definition IsNoExceptionFlag (flag : XCheckTLBFlag) : bool :=
  match flag with
  | NoException | OpcodeNoException => true
  | Read | Write | Opcode => false
  end.

(** Modelled from the spec: the modes of instruction fetches, which use
    the instruction-side BAT table and the instruction-relocate bit. *)
Definition IsOpcodeFlag (flag : XCheckTLBFlag) : bool :=
  match flag with
  | Opcode | OpcodeNoException => true
  | NoException | Read | Write => false
  end.

(** Modelled from the spec: [GenerateDSIException] and
    [GenerateISIException] record the fault for the execution loop. *)
Definition GenerateDSIException (effective_address : Z) (write : bool) (m : Machine)
  : Machine := add_exception (DSI effective_address write) m.

Definition GenerateISIException (effective_address : Z) (m : Machine) : Machine :=
  add_exception (ISI effective_address) m.

(** Modelled from the spec: the fault of a failed translation, by mode
    (sections 4.2 step 5 and 7): a data-storage interrupt for [Read] and
    [Write], an instruction-storage interrupt for [Opcode], nothing for
    the probing modes. *)
Definition GenerateFault (flag : XCheckTLBFlag) (effective_address : Z) (m : Machine)
  : Machine :=
  match flag with
  | NoException | OpcodeNoException => m
  | Read => GenerateDSIException effective_address false m
  | Write => GenerateDSIException effective_address true m
  | Opcode => GenerateISIException effective_address m
  end.

(** Modelled from the spec: the referenced and changed bits an access sets
    (section 4.2, steps 4 and 5): referenced on a lookup, changed on a
    write, none in a probing mode. *)
Definition touch_pte (flag : XCheckTLBFlag) (pte : PTE) : PTE :=
  match flag with
  | NoException | OpcodeNoException => pte
  | Read | Opcode =>
      mkPTE (pte_valid pte) (pte_api pte) (pte_rpn pte) true (pte_changed pte) (pte_wi pte)
  | Write =>
      mkPTE (pte_valid pte) (pte_api pte) (pte_rpn pte) true true (pte_wi pte)
  end.

(** Modelled from the spec: the scan of an entry group (section 4.2, step
    4): the first valid entry with the wanted API, with its position. *)
Fixpoint find_pte (api : Z) (group : list PTE) (i : nat) : option (nat * PTE) :=
  match group with
  | [] => None
  | pte :: rest =>
      if pte_valid pte && (pte_api pte =? api) then Some (i, pte)
      else find_pte api rest (S i)
  end.

Definition bat_lookup (table : BatTable) (address : Z) : Z :=
  default 0 (table !! Z.to_nat (bat_index address)).

Section WithMemory.

Variable mem : MemoryManager.

(** Modelled from the spec: [TranslatePageAddress], steps 3 to 5 of
    section 4.2: a direct-store segment is reported as such; otherwise the
    entry group is located by the hash of segment and API and scanned, the
    first matching valid entry wins and gets its bits set and written
    back unless the mode is a probing one; no match is a page fault. *)
Definition TranslatePageAddress (flag : XCheckTLBFlag) (address : EffectiveAddress)
    (m : Machine) : TranslateAddressResult * Machine :=
  let sr := default (mkSegmentRegister false 0) (m_sr m !! Z.to_nat (ea_SR address)) in
  if sr_direct_store sr then (mkTranslateAddressResult 0 DIRECT_STORE_SEGMENT false, m)
  else
    let hash := pteg_hash mem (sr_vsid sr) (ea_API address) in
    let group := default [] (m_pagetable m !! hash) in
    match find_pte (ea_API address) group 0 with
    | None => (mkTranslateAddressResult 0 PAGE_FAULT false, m)
    | Some (i, pte) =>
        let pte2 := touch_pte flag pte in
        let m' :=
          if IsNoExceptionFlag flag then m
          else set_pagetable (<[hash := <[i := pte2]> group]> (m_pagetable m)) m in
        (mkTranslateAddressResult
           (Z.lor (Z.shiftl (pte_rpn pte2) HW_PAGE_INDEX_SHIFT) (ea_offset address))
           PAGE_TABLE_TRANSLATED (pte_wi pte2), m')
    end.

(** Modelled from the spec: [TranslateAddress], steps 1 and 2 of section
    4.2: a mapped BAT entry for the page short-circuits the translation
    with the table's physical base or-ed with the offset in the BAT page;
    otherwise the page-table path is taken. *)
Definition TranslateAddress (flag : XCheckTLBFlag) (address : Z) (m : Machine)
  : TranslateAddressResult * Machine :=
  let table := if IsOpcodeFlag flag then m_ibat_table m else m_dbat_table m in
  let entry := bat_lookup table address in
  if bat_mapped entry then
    (mkTranslateAddressResult
       (Z.lor (bat_base entry) (Z.land address (BAT_PAGE_SIZE - 1)))
       BAT_TRANSLATED (bat_wi entry), m)
  else TranslatePageAddress flag (mkEffectiveAddress address) m.

(** Modelled from the spec: a physical address is RAM when it lies in the
    memory manager's RAM and is not a memory-mapped I/O address. *)
Definition is_ram_physical (physical : Z) : bool :=
  (0 <=? physical) && (physical <? ram_size mem) && negb (IsMMIOAddress mem physical).

(** Modelled from the spec: [IsRAMAddress]: whether the address, translated
    by a probe when [translate] is set, is a RAM address. *)
Definition IsRAMAddress (address : Z) (translate : bool) (m : Machine) : bool :=
  if translate then
    let tr := fst (TranslateAddress NoException address m) in
    Success tr && is_ram_physical (tar_address tr)
  else is_ram_physical address.

(** Modelled from the spec: [HostIsRAMAddress] (its comment in the header
    and section 4.4): whether an access to the address resolves to RAM
    in the requested space; [Virtual] is only valid while data
    translation is enabled. *)
Definition HostIsRAMAddress (address : Z) (space : RequestedAddressSpace) (m : Machine)
  : bool :=
  match space with
  | Effective => IsRAMAddress address (m_msr_DR m) m
  | Physical => IsRAMAddress address false m
  | Virtual => if m_msr_DR m then IsRAMAddress address true m else false
  end.

(** Modelled from the spec: raw memory is an array of bytes and the guest
    is big-endian (section 4.3, step 3): the byte at the lowest address is
    the most significant. *)
Definition byte_at (ram : gmap Z Z) (physical : Z) : Z := default 0 (ram !! physical).

Fixpoint be_read (ram : gmap Z Z) (physical : Z) (n : nat) : Z :=
  match n with
  | O => 0
  | S n' =>
      Z.lor (Z.shiftl (byte_at ram physical) (8 * Z.of_nat n'))
        (be_read ram (physical + 1) n')
  end.

Fixpoint be_write (ram : gmap Z Z) (physical : Z) (n : nat) (data : Z) : gmap Z Z :=
  match n with
  | O => ram
  | S n' =>
      be_write (<[physical := cast_u8 (Z.shiftr data (8 * Z.of_nat n'))]> ram)
        (physical + 1) n' data
  end.

(** Modelled from the spec: the access at a resolved physical address
    (section 4.3, step 3): an MMIO address is dispatched to the MMIO
    handler, a RAM address is a raw big-endian access, and an address that
    is neither is reported by a diagnostic and reads as zero (section 7
    (c)). *)
Definition PhysicalRead (U : Width) (physical : Z) (m : Machine) : Z * Machine :=
  if IsMMIOAddress mem physical then (MMIO_Read mem U physical mod 2 ^ bits_of U, m)
  else if is_ram_physical physical then
    (be_read (m_ram m) physical (Z.to_nat (sizeof U)), m)
  else (0, add_alert physical m).

Definition PhysicalWrite (physical data size : Z) (m : Machine) : Machine :=
  if IsMMIOAddress mem physical then add_mmio_write (physical, data, size) m
  else if is_ram_physical physical then
    set_ram (be_write (m_ram m) physical (Z.to_nat size) data) m
  else add_alert physical m.

(** Modelled from the spec: whether an access is translated (section 4.3,
    step 1): not when [never_translate] is set nor when the relocate bit
    of its kind is clear. *)
Definition translation_active (flag : XCheckTLBFlag) (never_translate : bool) (m : Machine)
  : bool :=
  negb never_translate && (if IsOpcodeFlag flag then m_msr_IR m else m_msr_DR m).

(** Modelled from the spec: one access that does not cross a page
    (section 4.3, steps 1 to 3): the address is physical as it is, or it is
    translated in the given mode; a failed translation raises the mode's
    fault and yields zero. *)
Definition ReadFromHardware_within (flag : XCheckTLBFlag) (U : Width)
    (never_translate : bool) (em_address : Z) (m : Machine) : Z * Machine :=
  if translation_active flag never_translate m then
    let '(tr, m1) := TranslateAddress flag em_address m in
    if Success tr then PhysicalRead U (tar_address tr) m1
    else (0, GenerateFault flag em_address m1)
  else PhysicalRead U em_address m.

Definition WriteToHardware_within (flag : XCheckTLBFlag) (never_translate : bool)
    (em_address data size : Z) (m : Machine) : Machine :=
  if translation_active flag never_translate m then
    let '(tr, m1) := TranslateAddress flag em_address m in
    if Success tr then PhysicalWrite (tar_address tr) data size m1
    else GenerateFault flag em_address m1
  else PhysicalWrite em_address data size m.

(** Modelled from the spec: a translated access that crosses a page
    boundary is decomposed into byte accesses (section 4.3, step 4). *)
Definition crosses_page (em_address size : Z) : bool :=
  HW_PAGE_SIZE <? Z.land em_address HW_PAGE_MASK + size.

Fixpoint read_bytes (flag : XCheckTLBFlag) (never_translate : bool) (em_address : Z)
    (n : nat) (acc : Z) (m : Machine) : Z * Machine :=
  match n with
  | O => (acc, m)
  | S n' =>
      let '(b, m1) := ReadFromHardware_within flag W8 never_translate em_address m in
      read_bytes flag never_translate (cast_u32 (em_address + 1)) n'
        (Z.lor (Z.shiftl acc 8) b) m1
  end.

Fixpoint write_bytes (flag : XCheckTLBFlag) (never_translate : bool) (em_address data : Z)
    (n : nat) (m : Machine) : Machine :=
  match n with
  | O => m
  | S n' =>
      let b := cast_u8 (Z.shiftr data (8 * Z.of_nat n')) in
      write_bytes flag never_translate (cast_u32 (em_address + 1)) data n'
        (WriteToHardware_within flag never_translate em_address b 1 m)
  end.

(** Modelled from the spec: [ReadFromHardware] and [WriteToHardware], the
    hardware access engine of section 4.3. *)
Definition ReadFromHardware (flag : XCheckTLBFlag) (U : Width) (never_translate : bool)
    (em_address : Z) (m : Machine) : Z * Machine :=
  if translation_active flag never_translate m && crosses_page em_address (sizeof U) then
    read_bytes flag never_translate em_address (Z.to_nat (sizeof U)) 0 m
  else ReadFromHardware_within flag U never_translate em_address m.

Definition WriteToHardware (flag : XCheckTLBFlag) (never_translate : bool)
    (em_address data size : Z) (m : Machine) : Machine :=
  if translation_active flag never_translate m && crosses_page em_address size then
    write_bytes flag never_translate em_address data (Z.to_nat size) m
  else WriteToHardware_within flag never_translate em_address data size m.

(** Modelled from the spec: the memory-breakpoint hook of section 4.3
    inspects the access and alters neither its result nor the machine. *)
Definition Memcheck (address var : Z) (write : bool) (size : Z) (m : Machine) : Machine := m.

(** The implementation of the calls of the header's inline functions. *)
Definition hardware : Hardware :=
  mkHardware Machine m_msr_DR HostIsRAMAddress ReadFromHardware WriteToHardware Memcheck.

End WithMemory.

(** An instance used for concrete runs: 24 MiB of RAM at physical zero,
    an MMIO window, and an exclusive-or hash. *)
Definition example_memory : MemoryManager :=
  mkMemoryManager 0x01800000
    (fun physical => (0x0C000000 <=? physical) && (physical <? 0x0D000000))
    (fun _ _ => 0)
    (fun vsid api => Z.lxor vsid api).

(** A machine at reset: translation off, nothing mapped, memory clear. *)
Definition reset_machine : Machine :=
  mkMachine false false (replicate 16 (mkSegmentRegister false 0))
    BatTable_zero BatTable_zero ∅ ∅ [] [] [].

(** The same machine with translation on and one page-table entry:
    segment 7 has segment identifier 5, and the group at the hash of 5 and
    API 1 holds an invalid entry and then a valid entry for API 1 that maps
    to the physical page 0x123. *)
Definition paged_machine : Machine :=
  mkMachine true true
    (<[7%nat := mkSegmentRegister false 5]> (replicate 16 (mkSegmentRegister false 0)))
    BatTable_zero BatTable_zero
    {[ Z.lxor 5 1 := [mkPTE false 1 0x77 false false false;
                      mkPTE true 1 0x123 false false false] ]}
    ∅ [] [] [].

Definition example_hardware : Hardware := hardware example_memory.

(** What an access may not touch in a probing mode: the guest exceptions
    raised so far and the page table with its referenced and changed
    bits. *)
Definition same_guest_view (m m' : Machine) : Prop :=
  m_exceptions m' = m_exceptions m /\ m_pagetable m' = m_pagetable m.

End MMU_cpp.

(** * Properties *)

(** ** Bit-fields and constants *)

Lemma BitField_div_mod (position bits storage : Z) :
  0 <= position -> 0 <= bits ->
  BitField position bits storage = (storage / 2 ^ position) mod 2 ^ bits.
Proof.
  intros Hp Hb. unfold BitField.
  rewrite Z.shiftr_land, Z.shiftr_shiftl_l, Z.sub_diag, Z.shiftl_0_r by lia.
  rewrite Z.land_ones, Z.shiftr_div_pow2 by lia. reflexivity.
Qed.

Lemma BitField_testbit (position bits storage i : Z) :
  0 <= position -> 0 <= bits -> 0 <= i ->
  Z.testbit (BitField position bits storage) i =
  (i <? bits) && Z.testbit storage (i + position).
Proof.
  intros Hp Hb Hi. unfold BitField.
  rewrite Z.shiftr_spec, Z.land_spec, Z.shiftl_spec by lia.
  replace (i + position - position) with i by lia.
  rewrite Z.testbit_ones_nonneg by lia.
  destruct (Z.ltb_spec i bits); rewrite ?andb_true_r, ?andb_false_r; reflexivity.
Qed.

Lemma BitField_range (position bits storage : Z) :
  0 <= position -> 0 <= bits -> 0 <= BitField position bits storage < 2 ^ bits.
Proof.
  intros Hp Hb. rewrite BitField_div_mod by lia. apply Z.mod_pos_bound. lia.
Qed.

(** C5. [Success()] holds exactly for the kinds BAT-translated and
    page-table-translated, that is for every kind but page-fault and
    direct-store-segment. *)
Theorem Success_iff_translated (r : TranslateAddressResult) :
  (Success r = true <->
     tar_result r = BAT_TRANSLATED \/ tar_result r = PAGE_TABLE_TRANSLATED) /\
  (Success r = true <->
     tar_result r <> PAGE_FAULT /\ tar_result r <> DIRECT_STORE_SEGMENT).
Proof.
  unfold Success. destruct r as [a k w]; simpl.
  destruct k; simpl; split; split; intros H;
    try discriminate; try (left; reflexivity); try (right; reflexivity);
    try reflexivity; try (split; discriminate).
  all: try (destruct H as [H | H]; discriminate H).
  all: destruct H as [H1 H2]; congruence.
Qed.

(** C6. The [EffectiveAddress] view of a 32-bit address: [offset] is its
    bits 0 to 11, [page_index] its bits 12 to 27, [API] its bits 22 to 27
    and [SR] its bits 28 to 31, of 12, 16, 6 and 4 bits; the view's word
    [Hex] is the address itself. *)
Theorem EffectiveAddress_view (address : Z) :
  is_u32 address ->
  let ea := mkEffectiveAddress address in
  Hex ea = address /\
  (ea_offset ea = address mod 2 ^ 12 /\
   ea_page_index ea = (address / 2 ^ 12) mod 2 ^ 16 /\
   ea_API ea = (address / 2 ^ 22) mod 2 ^ 6 /\
   ea_SR ea = address / 2 ^ 28) /\
  (0 <= ea_offset ea < 2 ^ 12 /\ 0 <= ea_page_index ea < 2 ^ 16 /\
   0 <= ea_API ea < 2 ^ 6 /\ 0 <= ea_SR ea < 2 ^ 4) /\
  (forall i, 0 <= i < 12 -> Z.testbit (ea_offset ea) i = Z.testbit address i) /\
  (forall i, 0 <= i < 16 -> Z.testbit (ea_page_index ea) i = Z.testbit address (i + 12)) /\
  (forall i, 0 <= i < 6 -> Z.testbit (ea_API ea) i = Z.testbit address (i + 22)) /\
  (forall i, 0 <= i < 4 -> Z.testbit (ea_SR ea) i = Z.testbit address (i + 28)) /\
  address = ea_SR ea * 2 ^ 28 + ea_page_index ea * 2 ^ 12 + ea_offset ea.
Proof.
  intros Hu ea. unfold is_u32 in Hu.
  unfold ea_offset, ea_page_index, ea_API, ea_SR; subst ea; simpl Hex.
  assert (Hsr : (address / 2 ^ 28) mod 2 ^ 4 = address / 2 ^ 28).
  { apply Z.mod_small. split; [apply Z.div_pos; lia|].
    apply Z.div_lt_upper_bound; lia. }
  assert (Hbit : forall position bits i, 0 <= position -> 0 <= i < bits ->
            Z.testbit (BitField position bits address) i
            = Z.testbit address (i + position)).
  { intros position bits i Hp Hi. rewrite BitField_testbit by lia.
    destruct (Z.ltb_spec i bits); [reflexivity | lia]. }
  split; [reflexivity|].
  split.
  { rewrite !BitField_div_mod by lia. rewrite Z.pow_0_r, Z.div_1_r, Hsr.
    repeat split; reflexivity. }
  split.
  { repeat split; apply BitField_range; lia. }
  split.
  { intros i Hi. rewrite Hbit by lia. f_equal; lia. }
  split; [intros i Hi; apply Hbit; lia|].
  split; [intros i Hi; apply Hbit; lia|].
  split; [intros i Hi; apply Hbit; lia|].
  rewrite !BitField_div_mod by lia. rewrite Z.pow_0_r, Z.div_1_r, Hsr.
  pose proof (Z.div_mod address (2 ^ 12) ltac:(lia)) as H1.
  pose proof (Z.div_mod (address / 2 ^ 12) (2 ^ 16) ltac:(lia)) as H2.
  rewrite Z.div_div in H2 by lia.
  change (2 ^ 12 * 2 ^ 16) with (2 ^ 28) in H2.
  lia.
Qed.

Lemma EffectiveAddress_view_witness :
  is_u32 0x80401234 /\
  ea_offset (mkEffectiveAddress 0x80401234) = 0x234 /\
  ea_page_index (mkEffectiveAddress 0x80401234) = 0x0401 /\
  ea_API (mkEffectiveAddress 0x80401234) = 1 /\
  ea_SR (mkEffectiveAddress 0x80401234) = 8.
Proof.
  assert (Hu : is_u32 0x80401234) by (unfold is_u32; lia).
  pose proof (EffectiveAddress_view 0x80401234 Hu) as H.
  split; [exact Hu|].
  destruct H as (_ & (Ho & Hp & Ha & Hs) & _).
  rewrite Ho, Hp, Ha, Hs. repeat split; reflexivity.
Defined.

Lemma testbit_above (a n i : Z) :
  0 <= a < 2 ^ n -> 0 <= n <= i -> Z.testbit a i = false.
Proof.
  intros Ha Hi. rewrite <- (Z.mod_small a (2 ^ n)) by lia.
  apply Z.mod_pow2_bits_high. lia.
Qed.

Lemma testbit_below_multiple (a n i : Z) :
  a mod 2 ^ n = 0 -> 0 <= i < n -> Z.testbit a i = false.
Proof.
  intros Ha Hi. rewrite <- (Z.mod_pow2_bits_low a n i) by lia.
  rewrite Ha. apply Z.bits_0.
Qed.

Lemma land_bit_test (a k : Z) :
  0 <= k -> negb (Z.land a (Z.shiftl 1 k) =? 0) = Z.testbit a k.
Proof.
  intros Hk. rewrite Z.shiftl_1_l.
  destruct (Z.testbit a k) eqn:Hb.
  - destruct (Z.eqb_spec (Z.land a (2 ^ k)) 0) as [E|E]; [|reflexivity].
    apply (f_equal (fun z => Z.testbit z k)) in E.
    rewrite Z.land_spec, Hb, Z.pow2_bits_true, Z.bits_0 in E by lia. discriminate.
  - replace (Z.land a (2 ^ k)) with 0; [reflexivity|].
    symmetry. apply Z.bits_inj'. intros i Hi.
    rewrite Z.land_spec, Z.bits_0, Z.pow2_bits_eqb by lia.
    destruct (Z.eqb_spec k i) as [->|]; [rewrite Hb|]; auto using andb_false_r.
Qed.

Lemma BAT_RESULT_MASK_testbit (i : Z) :
  0 <= i -> Z.testbit BAT_RESULT_MASK i = (3 <=? i) && (i <? 32).
Proof.
  intros Hi. change BAT_RESULT_MASK with (Z.shiftl (Z.ones 29) 3).
  rewrite Z.shiftl_spec by lia.
  destruct (Z.leb_spec 3 i).
  - rewrite Z.testbit_ones_nonneg by lia.
    destruct (Z.ltb_spec (i - 3) 29), (Z.ltb_spec i 32); simpl; lia || reflexivity.
  - rewrite Z.testbit_neg_r by lia. reflexivity.
Qed.

(** C4 (amended). A [BatTable] is an array of [BAT_PAGE_COUNT] = 2^15 =
    32768 words, which is 128 KiB of storage; it is indexed by the page
    number, the address bits 17 to 31, which is always below the count; an
    entry that packs a base aligned to the BAT page with the flags mapped,
    physical and write-inhibited gives back the base and each flag. *)
Theorem BatTable_layout (address base : Z) (mapped physical wi : bool) :
  is_u32 address -> is_u32 base -> base mod BAT_PAGE_SIZE = 0 ->
  (BAT_PAGE_COUNT = 32768 /\ BAT_PAGE_COUNT = 2 ^ (32 - 17) /\
   BatTable_bytes = 128 * 1024 /\ BatTable_wf BatTable_zero) /\
  (0 <= bat_index address < BAT_PAGE_COUNT /\
   forall i, 0 <= i -> Z.testbit (bat_index address) i = Z.testbit address (i + 17)) /\
  (let entry := bat_pack base mapped physical wi in
   is_u32 entry /\ bat_base entry = base /\
   bat_mapped entry = mapped /\ bat_physical entry = physical /\ bat_wi entry = wi).
Proof.
  unfold is_u32. intros Ha Hb Hal.
  split.
  { split; [reflexivity|]. split; [reflexivity|]. split; [reflexivity|].
    unfold BatTable_wf, BatTable_zero. split.
    - rewrite length_replicate. reflexivity.
    - apply Forall_replicate. unfold is_u32. lia. }
  split.
  { unfold bat_index, BAT_INDEX_SHIFT. split.
    - rewrite Z.shiftr_div_pow2 by lia. change BAT_PAGE_COUNT with (2 ^ 15). split.
      + apply Z.div_pos; lia.
      + apply Z.div_lt_upper_bound; lia.
    - intros i Hi. apply Z.shiftr_spec. lia. }
  change BAT_PAGE_SIZE with (2 ^ 17) in Hal.
  set (flags := Z.lor (if mapped then BAT_MAPPED_BIT else 0)
                  (Z.lor (if physical then BAT_PHYSICAL_BIT else 0)
                     (if wi then BAT_WI_BIT else 0))).
  assert (Hf : 0 <= flags < 2 ^ 3)
    by (subst flags; destruct mapped, physical, wi; vm_compute; split; easy).
  assert (Hlow : forall i, 0 <= i < 17 -> Z.testbit base i = false)
    by (intros i Hi; apply (testbit_below_multiple base 17); assumption).
  assert (Hbit : forall k, 0 <= k < 3 ->
            Z.testbit (bat_pack base mapped physical wi) k = Z.testbit flags k).
  { intros k Hk. unfold bat_pack. fold flags.
    rewrite Z.lor_spec, Hlow by lia. reflexivity. }
  cbv zeta. split.
  { unfold bat_pack. fold flags. split.
    - apply Z.lor_nonneg. lia.
    - destruct (Z.eq_dec (Z.lor base flags) 0) as [->|Hne]; [lia|].
      apply Z.log2_lt_pow2.
      + assert (0 <= Z.lor base flags) by (apply Z.lor_nonneg; lia). lia.
      + rewrite Z.log2_lor by lia.
        assert (Z.log2 base < 32).
        { destruct (Z.eq_dec base 0) as [->|]; [simpl; lia|].
          apply Z.log2_lt_pow2; lia. }
        assert (Z.log2 flags < 32).
        { destruct (Z.eq_dec flags 0) as [->|]; [simpl; lia|].
          apply Z.log2_lt_pow2; lia. }
        lia. }
  split.
  { unfold bat_base, bat_pack. fold flags. apply Z.bits_inj'. intros i Hi.
    rewrite Z.land_spec, Z.lor_spec, BAT_RESULT_MASK_testbit by lia.
    destruct (Z.leb_spec 3 i), (Z.ltb_spec i 32); simpl;
      rewrite ?andb_true_r, ?andb_false_r.
    - rewrite (testbit_above flags 3 i) by lia. apply orb_false_r.
    - symmetry. apply (testbit_above base 32); lia.
    - symmetry. apply Hlow. lia.
    - lia. }
  unfold bat_mapped, bat_physical, bat_wi.
  change BAT_MAPPED_BIT with (Z.shiftl 1 0).
  change BAT_PHYSICAL_BIT with (Z.shiftl 1 1).
  change BAT_WI_BIT with (Z.shiftl 1 2).
  rewrite !land_bit_test, !Hbit by lia.
  subst flags. destruct mapped, physical, wi; repeat split; reflexivity.
Qed.

Lemma BatTable_layout_witness :
  (is_u32 0x80001000 /\ is_u32 0x01FE0000 /\ 0x01FE0000 mod BAT_PAGE_SIZE = 0) /\
  bat_index 0x80001000 = 0x4000 /\
  bat_base (bat_pack 0x01FE0000 true true false) = 0x01FE0000 /\
  bat_physical (bat_pack 0x01FE0000 true true false) = true.
Proof.
  assert (H1 : is_u32 0x80001000) by (unfold is_u32; lia).
  assert (H2 : is_u32 0x01FE0000) by (unfold is_u32; lia).
  assert (H3 : 0x01FE0000 mod BAT_PAGE_SIZE = 0) by reflexivity.
  pose proof (BatTable_layout 0x80001000 0x01FE0000 true true false H1 H2 H3)
    as (_ & _ & _ & Hb & _ & Hp & _).
  split; [split; [exact H1 | split; [exact H2 | exact H3]]|].
  split; [reflexivity|]. split; [exact Hb | exact Hp].
Defined.

(** C4 as stated fails: the table does not have 128K entries but 32K; 128K
    is its size in bytes. *)
Lemma BatTable_not_128K_entries :
  BAT_PAGE_COUNT <> 128 * 1024 /\
  Z.of_nat (length BatTable_zero) <> 128 * 1024 /\
  BAT_PAGE_COUNT * 4 = 128 * 1024.
Proof.
  repeat split; unfold BatTable_zero; rewrite ?length_replicate; vm_compute; congruence.
Qed.

(** ** Running programs *)

Lemma run_bind (H : Hardware) {A B : Type} (p : Prog A) (f : A -> Prog B)
    (s : hw_state H) :
  run H (bind p f) s =
  mkOutcome (result (run H (f (result (run H p s))) (final (run H p s))))
            (final (run H (f (result (run H p s))) (final (run H p s))))
            (trace (run H p s) ++ trace (run H (f (result (run H p s))) (final (run H p s)))).
Proof.
  revert s. induction p as [r | a sp k IH | k IH | fl U nt a k IH | fl nt a d sz k IH
                            | a v w sz k IH]; intros s; simpl.
  - destruct (run H (f r) s); reflexivity.
  - rewrite IH. reflexivity.
  - apply IH.
  - rewrite IH. reflexivity.
  - rewrite IH. reflexivity.
  - rewrite IH. reflexivity.
Qed.

Lemma cast_u32_bit_cast_W32 (x : Z) :
  cast_u32 (bit_cast_unsigned W32 (cast_u32 x)) = cast_u32 x.
Proof.
  unfold cast_u32, bit_cast_unsigned. change (2 ^ bits_of W32) with (2 ^ 32).
  rewrite !Z.mod_mod by lia. reflexivity.
Qed.

#[local] Arguments cast_u32 : simpl never.
#[local] Arguments bit_cast_unsigned : simpl never.

Ltac unfold_facade :=
  unfold HostTryRead, HostTryWrite, HostTryWrite_Size64, HostTryWrite_small,
    HostTryWrite_small_auto, HostWrite, HostWrite_Size64, HostWrite_small,
    HostWrite_small_auto, Write_, Write_Size64, Write_small, Write_small_auto,
    call_HostIsRAMAddress, call_ReadFromHardware, call_WriteToHardware, call_Memcheck,
    load_msr_DR, logged in *;
  rewrite ?cast_u32_bit_cast_W32 in *.

Ltac split_ifs :=
  repeat match goal with
    | |- context [if ?b then _ else _] => destruct b eqn:?; simpl in *
    end.

Ltac absurd_some :=
  match goal with
  | H : is_Some None |- _ => destruct H; discriminate
  | H : None = Some _ |- _ => discriminate H
  | H : Some _ = None |- _ => discriminate H
  | H : true = false |- _ => discriminate H
  | H : false = true |- _ => discriminate H
  end.

(** ** The host facade over any implementation of the calls *)

(** C10. [HostTryRead] and [HostTryWrite] start by asking
    [HostIsRAMAddress] about the address in the requested space; when the
    answer is no they return an absent result, having made no other call
    (so no memory access) and left the state as it was; hence a present
    result implies that the address resolved to RAM in that space. *)
Theorem HostTry_guarded_by_HostIsRAMAddress (H : Hardware) (T : Width)
    (var address : Z) (space : RequestedAddressSpace) (s : hw_state H) :
  let is_ram := hw_HostIsRAMAddress H address space s in
  let rd := run H (HostTryRead T address space) s in
  let wr := run H (HostTryWrite T var address space) s in
  (head (trace rd) = Some (EvHostIsRAMAddress address space is_ram) /\
   head (trace wr) = Some (EvHostIsRAMAddress address space is_ram)) /\
  (is_ram = false ->
     (result rd = None /\ final rd = s /\
      trace rd = [EvHostIsRAMAddress address space false] /\ accesses (trace rd) = []) /\
     (result wr = None /\ final wr = s /\
      trace wr = [EvHostIsRAMAddress address space false] /\ accesses (trace wr) = [])) /\
  (is_Some (result rd) -> is_ram = true) /\
  (is_Some (result wr) -> is_ram = true).
Proof.
  cbv zeta. split; [|split; [|split]].
  - split; [reflexivity|]. destruct T; reflexivity.
  - intros Hno. split.
    + unfold_facade. simpl. rewrite Hno. simpl. repeat split; reflexivity.
    + destruct T; unfold_facade; simpl; rewrite Hno; simpl; repeat split; reflexivity.
  - intros Hsome. destruct (hw_HostIsRAMAddress H address space s) eqn:Hram;
      [reflexivity|].
    unfold_facade. simpl in Hsome. rewrite Hram in Hsome. simpl in Hsome. absurd_some.
  - intros Hsome. destruct (hw_HostIsRAMAddress H address space s) eqn:Hram;
      [reflexivity|].
    destruct T; unfold_facade; simpl in Hsome; rewrite Hram in Hsome; simpl in Hsome;
      absurd_some.
Qed.

(** C2. In [Virtual] space [HostTryRead] and [HostTryWrite] return an
    absent result, without any memory access, when MSR.DR is off; when it
    is on and the address resolves they return a present result whose
    translated flag is set (for a 64-bit write, when both of its words
    resolve with MSR.DR still on). *)
Theorem Virtual_space_requires_DR (H : Hardware) (T : Width) (var address : Z)
    (s : hw_state H) :
  let rd := run H (HostTryRead T address Virtual) s in
  let wr := run H (HostTryWrite T var address Virtual) s in
  let s1 := hw_WriteToHardware H NoException false address
              (cast_u32 (Z.shiftr (bit_cast_unsigned W64 var) 32)) 4 s in
  (hw_msr_DR H s = false ->
     (result rd = None /\ accesses (trace rd) = []) /\
     (result wr = None /\ accesses (trace wr) = [])) /\
  (hw_msr_DR H s = true -> hw_HostIsRAMAddress H address Virtual s = true ->
     result rd = Some (mkReadResult true
                         (fst (hw_ReadFromHardware H NoException T false address s))) /\
     (Size64 T = false -> result wr = Some (mkWriteResult true)) /\
     (Size64 T = true -> hw_msr_DR H s1 = true ->
      hw_HostIsRAMAddress H (cast_u32 (address + 4)) Virtual s1 = true ->
      result wr = Some (mkWriteResult true))).
Proof.
  cbv zeta. split.
  - intros Hdr. split.
    + unfold_facade. simpl.
      destruct (hw_HostIsRAMAddress H address Virtual s); simpl; rewrite ?Hdr; simpl;
        split; reflexivity.
    + destruct T; unfold_facade; simpl;
        destruct (hw_HostIsRAMAddress H address Virtual s); simpl; rewrite ?Hdr; simpl;
        split; reflexivity.
  - intros Hdr Hram. split; [|split].
    + unfold_facade. simpl. rewrite Hram. simpl. rewrite Hdr. reflexivity.
    + intros Hsz. destruct T; try discriminate Hsz;
        unfold_facade; simpl; rewrite Hram; simpl; rewrite Hdr; reflexivity.
    + intros Hsz Hdr1 Hram1. destruct T; try discriminate Hsz.
      unfold_facade. simpl. rewrite Hram. simpl. rewrite Hdr. simpl.
      rewrite Hram1. simpl. rewrite Hdr1. reflexivity.
Qed.

(** C3. The translated flag of a present result: false for an access
    requested in [Physical] space, the value MSR.DR has when the access
    returns for [Effective] space, and true for [Virtual] space. *)
Theorem translated_flag_by_space (H : Hardware) (T : Width) (var address : Z)
    (space : RequestedAddressSpace) (s : hw_state H) :
  let rd := run H (HostTryRead T address space) s in
  let wr := run H (HostTryWrite T var address space) s in
  (forall r, result rd = Some r ->
     rr_translated r = match space with
                       | Physical => false
                       | Effective => hw_msr_DR H (final rd)
                       | Virtual => true
                       end) /\
  (forall w, result wr = Some w ->
     wr_translated w = match space with
                       | Physical => false
                       | Effective => hw_msr_DR H (final wr)
                       | Virtual => true
                       end).
Proof.
  cbv zeta. split.
  - intros r. unfold_facade. simpl.
    destruct (hw_HostIsRAMAddress H address space s); simpl; [|intros; absurd_some].
    destruct space; simpl.
    + intros [= <-]. reflexivity.
    + intros [= <-]. reflexivity.
    + destruct (hw_msr_DR H s); simpl; [|intros; absurd_some].
      intros [= <-]. reflexivity.
  - intros w. destruct T; unfold_facade; simpl.
    1-3: destruct (hw_HostIsRAMAddress H address space s); simpl; [|intros; absurd_some];
         destruct space; simpl;
         [ intros [= <-]; reflexivity
         | intros [= <-]; reflexivity
         | destruct (hw_msr_DR H s); simpl; [|intros; absurd_some];
           intros [= <-]; reflexivity ].
    destruct (hw_HostIsRAMAddress H address space s); simpl; [|intros; absurd_some].
    destruct space; simpl.
    + match goal with
      | |- context [hw_HostIsRAMAddress H ?a ?sp ?st] =>
          destruct (hw_HostIsRAMAddress H a sp st)
      end; simpl; [|intros; absurd_some].
      intros [= <-]. reflexivity.
    + match goal with
      | |- context [hw_HostIsRAMAddress H ?a ?sp ?st] =>
          destruct (hw_HostIsRAMAddress H a sp st)
      end; simpl; [|intros; absurd_some].
      intros [= <-]. reflexivity.
    + destruct (hw_msr_DR H s); simpl; [|intros; absurd_some].
      match goal with
      | |- context [hw_HostIsRAMAddress H ?a ?sp ?st] =>
          destruct (hw_HostIsRAMAddress H a sp st)
      end; simpl; [|intros; absurd_some].
      match goal with
      | |- context [hw_msr_DR H ?st] => destruct (hw_msr_DR H st)
      end; simpl; [|intros; absurd_some].
      intros [= <-]. reflexivity.
Qed.

(** C1 (amended). A 64-bit [HostTryWrite] is two 32-bit [HostTryWrite]s,
    the second made in the state the first one left: when the first is
    absent the whole write is absent and nothing of the second is
    attempted; when it is present the whole write is the second's result.
    A 64-bit [HostWrite] makes both 32-bit [WriteToHardware] calls
    whatever happens in the first, and returns nothing. *)
Theorem HostTryWrite_Size64_short_circuit (H : Hardware) (var address : Z)
    (space : RequestedAddressSpace) (s : hw_state H) :
  let v := bit_cast_unsigned W64 var in
  let first := run H (HostTryWrite W32 (cast_u32 (Z.shiftr v 32)) address space) s in
  let second := run H (HostTryWrite W32 (cast_u32 v) (cast_u32 (address + 4)) space)
                  (final first) in
  let whole := run H (HostTryWrite W64 var address space) s in
  (result first = None ->
     result whole = None /\ final whole = final first /\ trace whole = trace first) /\
  (is_Some (result first) ->
     result whole = result second /\ final whole = final second /\
     trace whole = trace first ++ trace second) /\
  trace (run H (HostWrite W64 var address) s) =
    [EvWriteToHardware NoException false address (cast_u32 (Z.shiftr v 32)) 4;
     EvWriteToHardware NoException false (cast_u32 (address + 4)) (cast_u32 v) 4].
Proof.
  cbv zeta.
  change (HostTryWrite W64 var address space) with (HostTryWrite_Size64 var address space).
  change (HostTryWrite W32) with (HostTryWrite_small W32).
  unfold HostTryWrite_Size64. rewrite run_bind. simpl result; simpl final; simpl trace.
  split; [|split].
  - intros Hnone. rewrite Hnone. simpl. rewrite app_nil_r. repeat split; reflexivity.
  - intros [w Hw]. rewrite Hw. repeat split; reflexivity.
  - reflexivity.
Qed.

(** C9 (amended). Through [HostWrite] and the guest-facing [Write] a
    64-bit value always goes out as two 32-bit [WriteToHardware] calls,
    its most significant word at the address and its least significant
    word four bytes further (in 32-bit address arithmetic).  Through
    [HostTryWrite] the high word is written at the address exactly when
    the check passes there, and the low word four bytes further exactly
    when, in the state the first write left, the check passes there too;
    the result is present exactly when both words were written. *)
Theorem Size64_write_word_order (H : Hardware) (var address : Z)
    (space : RequestedAddressSpace) (s : hw_state H) :
  is_u64 var -> is_u32 address ->
  let hi := var / 2 ^ 32 in
  let lo := var mod 2 ^ 32 in
  let never_translate := never_translate_of space in
  let high_word flag nt := EvWriteToHardware flag nt address hi 4 in
  let low_word flag nt := EvWriteToHardware flag nt (cast_u32 (address + 4)) lo 4 in
  let try := run H (HostTryWrite W64 var address space) s in
  let s1 := hw_WriteToHardware H NoException never_translate address hi 4 s in
  let first_ok := host_try_permitted H address space s in
  let second_ok := host_try_permitted H (cast_u32 (address + 4)) space s1 in
  (var = hi * 2 ^ 32 + lo /\ is_u32 hi /\ is_u32 lo) /\
  accesses (trace (run H (HostWrite W64 var address) s))
    = [high_word NoException false; low_word NoException false] /\
  accesses (trace (run H (Write_ W64 var address) s))
    = [high_word Write false; low_word Write false] /\
  accesses (trace try)
    = (if first_ok
       then high_word NoException never_translate
              :: (if second_ok then [low_word NoException never_translate] else [])
       else []) /\
  (is_Some (result try) <-> first_ok = true /\ second_ok = true) /\
  (is_Some (result try) ->
   accesses (trace try)
   = [high_word NoException never_translate; low_word NoException never_translate]).
Proof.
  unfold is_u64, is_u32. intros Hv Ha. cbv zeta.
  assert (Hhi : cast_u32 (Z.shiftr (bit_cast_unsigned W64 var) 32) = var / 2 ^ 32).
  { unfold cast_u32, bit_cast_unsigned. change (2 ^ bits_of W64) with (2 ^ 64).
    rewrite (Z.mod_small var) by lia. rewrite Z.shiftr_div_pow2 by lia.
    apply Z.mod_small. split; [apply Z.div_pos; lia|].
    apply Z.div_lt_upper_bound; lia. }
  assert (Hlo : cast_u32 (bit_cast_unsigned W64 var) = var mod 2 ^ 32).
  { unfold cast_u32, bit_cast_unsigned. change (2 ^ bits_of W64) with (2 ^ 64).
    rewrite (Z.mod_small var) by lia. reflexivity. }
  split.
  { split; [|split].
    - pose proof (Z.div_mod var (2 ^ 32) ltac:(lia)). lia.
    - split; [apply Z.div_pos; lia | apply Z.div_lt_upper_bound; lia].
    - apply Z.mod_pos_bound. lia. }
  split; [unfold_facade; simpl; rewrite Hhi, Hlo; reflexivity|].
  split; [unfold_facade; simpl; rewrite Hhi, Hlo; reflexivity|].
  unfold host_try_permitted, never_translate_of.
  unfold_facade. simpl. rewrite Hhi, Hlo.
  destruct (hw_HostIsRAMAddress H address space s); simpl;
    [|split; [reflexivity|]; split;
      [split; [intros; absurd_some | intros [Hf _]; discriminate Hf]
      |intros; absurd_some]].
  destruct space; simpl.
  - match goal with
    | |- context [hw_HostIsRAMAddress H ?a ?sp ?st] =>
        destruct (hw_HostIsRAMAddress H a sp st)
    end; simpl; (split; [reflexivity|]); split;
      try (split; [intros; absurd_some | intros [_ Hf]; discriminate Hf]);
      try (split; [intros; split; reflexivity | intros; eexists; reflexivity]);
      intros; try absurd_some; reflexivity.
  - match goal with
    | |- context [hw_HostIsRAMAddress H ?a ?sp ?st] =>
        destruct (hw_HostIsRAMAddress H a sp st)
    end; simpl; (split; [reflexivity|]); split;
      try (split; [intros; absurd_some | intros [_ Hf]; discriminate Hf]);
      try (split; [intros; split; reflexivity | intros; eexists; reflexivity]);
      intros; try absurd_some; reflexivity.
  - destruct (hw_msr_DR H s); simpl;
      [|split; [reflexivity|]; split;
        [split; [intros; absurd_some | intros [Hf _]; discriminate Hf]
        |intros; absurd_some]].
    match goal with
    | |- context [hw_HostIsRAMAddress H ?a ?sp ?st] =>
        destruct (hw_HostIsRAMAddress H a sp st)
    end; simpl;
      [|split; [reflexivity|]; split;
        [split; [intros; absurd_some | intros [_ Hf]; discriminate Hf]
        |intros; absurd_some]].
    match goal with
    | |- context [hw_msr_DR H ?st] => destruct (hw_msr_DR H st)
    end; simpl; (split; [reflexivity|]); split;
      try (split; [intros; absurd_some | intros [_ Hf]; discriminate Hf]);
      try (split; [intros; split; reflexivity | intros; eexists; reflexivity]);
      intros; try absurd_some; reflexivity.
Qed.

(** ** Big-endian memory of the modelled hardware *)

Lemma lor_shiftl_mod (v n k : Z) :
  0 <= n -> 0 <= k ->
  Z.lor (Z.shiftl (Z.shiftr v n mod 2 ^ k) n) (v mod 2 ^ n) = v mod 2 ^ (n + k).
Proof.
  intros Hn Hk. apply Z.bits_inj'. intros i Hi.
  rewrite Z.lor_spec, !Z.testbit_mod_pow2 by lia.
  destruct (Z.ltb_spec i n).
  - rewrite Z.shiftl_spec_low by lia.
    destruct (Z.ltb_spec i (n + k)); [reflexivity | lia].
  - rewrite Z.shiftl_spec, Z.testbit_mod_pow2, Z.shiftr_spec by lia.
    replace (i - n + n) with i by lia. rewrite orb_false_r.
    destruct (Z.ltb_spec (i - n) k), (Z.ltb_spec i (n + k)); reflexivity || lia.
Qed.

Section Memory.

Import MMU_cpp.

Lemma be_write_lookup_outside (n : nat) (ram : gmap Z Z) (p d q : Z) :
  q < p \/ p + Z.of_nat n <= q -> be_write ram p n d !! q = ram !! q.
Proof.
  revert ram p. induction n as [|n IH]; intros ram p Hq; simpl; [reflexivity|].
  rewrite IH by lia. apply lookup_insert_ne. lia.
Qed.

Lemma be_read_ext (n : nat) (ram1 ram2 : gmap Z Z) (p : Z) :
  (forall q, p <= q < p + Z.of_nat n -> ram1 !! q = ram2 !! q) ->
  be_read ram1 p n = be_read ram2 p n.
Proof.
  revert p. induction n as [|n IH]; intros p Hq; simpl; [reflexivity|].
  unfold byte_at. rewrite (Hq p) by lia. rewrite (IH (p + 1)); [reflexivity|].
  intros q Hr. apply Hq. lia.
Qed.

Lemma be_read_be_write (n : nat) (ram : gmap Z Z) (p d : Z) :
  be_read (be_write ram p n d) p n = d mod 2 ^ (8 * Z.of_nat n).
Proof.
  revert ram p. induction n as [|n IH]; intros ram p.
  - simpl. rewrite Z.mod_1_r. reflexivity.
  - cbn [be_read be_write]. rewrite IH. unfold byte_at.
    rewrite be_write_lookup_outside by lia. rewrite lookup_insert_eq.
    cbn [default from_option]. unfold id, cast_u8.
    rewrite lor_shiftl_mod by lia. f_equal. f_equal. lia.
Qed.

Lemma be_read_app (n k : nat) (ram : gmap Z Z) (p : Z) :
  be_read ram p (n + k) =
  Z.lor (Z.shiftl (be_read ram p n) (8 * Z.of_nat k)) (be_read ram (p + Z.of_nat n) k).
Proof.
  revert p. induction n as [|n IH]; intros p.
  - simpl. rewrite Z.shiftl_0_l, Z.add_0_r. reflexivity.
  - cbn [be_read Nat.add]. rewrite IH, Z.shiftl_lor, Z.shiftl_shiftl by lia.
    rewrite Z.lor_assoc.
    replace (8 * Z.of_nat n + 8 * Z.of_nat k) with (8 * Z.of_nat (n + k)) by lia.
    replace (p + Z.of_nat (S n)) with (p + 1 + Z.of_nat n) by lia.
    reflexivity.
Qed.

Variable mem : MemoryManager.

Lemma is_ram_physical_inv (p : Z) :
  is_ram_physical mem p = true ->
  0 <= p < ram_size mem /\ IsMMIOAddress mem p = false.
Proof.
  unfold is_ram_physical. intros H.
  apply andb_true_iff in H as [H Hm]. apply andb_true_iff in H as [H1 H2].
  apply negb_true_iff in Hm. split; [lia | exact Hm].
Qed.

Lemma WriteToHardware_physical_ram (flag : XCheckTLBFlag) (p data size : Z) (m : Machine) :
  is_ram_physical mem p = true ->
  WriteToHardware mem flag true p data size m =
  set_ram (be_write (m_ram m) p (Z.to_nat size) data) m.
Proof.
  intros Hram. destruct (is_ram_physical_inv p Hram) as [_ Hm].
  unfold WriteToHardware, WriteToHardware_within, translation_active, PhysicalWrite.
  simpl. rewrite Hm, Hram. reflexivity.
Qed.

Lemma ReadFromHardware_physical_ram (flag : XCheckTLBFlag) (U : Width) (p : Z) (m : Machine) :
  is_ram_physical mem p = true ->
  ReadFromHardware mem flag U true p m = (be_read (m_ram m) p (Z.to_nat (sizeof U)), m).
Proof.
  intros Hram. destruct (is_ram_physical_inv p Hram) as [_ Hm].
  unfold ReadFromHardware, ReadFromHardware_within, translation_active, PhysicalRead.
  simpl. rewrite Hm, Hram. reflexivity.
Qed.

End Memory.

(** ** Round trip through physical RAM *)

#[local] Arguments MMU_cpp.HostIsRAMAddress : simpl never.
#[local] Arguments MMU_cpp.ReadFromHardware : simpl never.
#[local] Arguments MMU_cpp.WriteToHardware : simpl never.
#[local] Arguments MMU_cpp.is_ram_physical : simpl never.
#[local] Arguments MMU_cpp.be_read : simpl never.
#[local] Arguments MMU_cpp.be_write : simpl never.

(** C8 (amended). For an aligned 32-bit address at which
    [HostIsRAMAddress] holds in [Physical] space (and, for a 64-bit
    value, holds four bytes further as well, the 64-bit write checking
    each of its words) and a value of 8, 16, 32 or 64 bits,
    [HostTryWrite] in [Physical] space succeeds and a following
    [HostTryRead] of the same width at the same address in [Physical]
    space returns the value written, both untranslated.  At an address
    where [HostIsRAMAddress] does not hold the write is refused, nothing
    is written and the read returns an absent result. *)
Theorem Physical_write_then_read (mem : MMU_cpp.MemoryManager) (T : Width) (A V : Z)
    (m : MMU_cpp.Machine) :
  is_u32 A ->
  A mod sizeof T = 0 ->
  0 <= V < 2 ^ bits_of T ->
  let wr := run (MMU_cpp.hardware mem) (HostTryWrite T V A Physical) m in
  let rd := run (MMU_cpp.hardware mem) (HostTryRead T A Physical) (final wr) in
  (MMU_cpp.HostIsRAMAddress mem A Physical m = true ->
   (Size64 T = true -> MMU_cpp.HostIsRAMAddress mem (A + 4) Physical m = true) ->
   result wr = Some (mkWriteResult false) /\
   result rd = Some (mkReadResult false V)) /\
  (MMU_cpp.HostIsRAMAddress mem A Physical m = false ->
   result wr = None /\ final wr = m /\ result rd = None).
Proof.
  unfold is_u32. intros Hu Hal HV. cbv zeta.
  assert (Hq : forall a s, MMU_cpp.HostIsRAMAddress mem a Physical s
                           = MMU_cpp.is_ram_physical mem a) by reflexivity.
  rewrite !Hq. split.
  - intros Hram Hram4.
    destruct T.
    1-3: unfold_facade; simpl; rewrite ?Hq, Hram; simpl;
         rewrite WriteToHardware_physical_ram by assumption; simpl;
         rewrite ?Hq, ?Hram; simpl;
         rewrite ReadFromHardware_physical_ram by assumption; simpl;
         (split; [reflexivity|]); rewrite be_read_be_write;
         unfold cast_u32, bit_cast_unsigned;
         repeat match goal with
           | |- context [2 ^ bits_of ?W] =>
               let c := eval vm_compute in (2 ^ bits_of W) in
               change (2 ^ bits_of W) with c in *
           | |- context [8 * Z.of_nat (Z.to_nat ?n)] =>
               let c := eval vm_compute in (8 * Z.of_nat (Z.to_nat n)) in
               change (8 * Z.of_nat (Z.to_nat n)) with c
           end;
         rewrite !(Z.mod_small V) by lia; reflexivity.
    change (sizeof W64) with 8 in Hal. change (2 ^ bits_of W64) with (2 ^ 64) in HV.
    specialize (Hram4 eq_refl).
    assert (Hc : cast_u32 (A + 4) = A + 4).
    { unfold cast_u32. apply Z.mod_small.
      pose proof (Z.div_mod A 8 ltac:(lia)). lia. }
    unfold_facade. simpl. rewrite ?Hq, Hram. simpl.
    rewrite WriteToHardware_physical_ram by assumption. simpl.
    rewrite ?Hc, ?Hq, ?Hram4. simpl.
    rewrite WriteToHardware_physical_ram by assumption. simpl.
    rewrite ?Hq, ?Hram. simpl.
    rewrite ReadFromHardware_physical_ram by assumption. simpl.
    split; [reflexivity|]. do 2 f_equal.
    change (Z.to_nat 8) with (4 + 4)%nat. change (Z.to_nat 4) with 4%nat.
    rewrite be_read_app, be_read_be_write.
    rewrite (be_read_ext 4 _ (MMU_cpp.be_write (MMU_cpp.m_ram m) A 4
               (cast_u32 (Z.shiftr (bit_cast_unsigned W64 V) 32)))).
    2: { intros q Hq'. apply be_write_lookup_outside. lia. }
    rewrite be_read_be_write.
    unfold cast_u32, bit_cast_unsigned. change (2 ^ bits_of W64) with (2 ^ 64).
    rewrite (Z.mod_small V (2 ^ 64)) by lia.
    change (8 * Z.of_nat 4) with 32. rewrite !Z.mod_mod by lia.
    change (Z.of_nat 4) with 4 in *.
    rewrite lor_shiftl_mod by lia. apply Z.mod_small. lia.
  - intros Hno.
    destruct T; unfold_facade; simpl; rewrite ?Hq, Hno; simpl; rewrite ?Hq, ?Hno; simpl;
      repeat split; reflexivity.
Qed.

(** ** Side effects of a translation, by mode *)

Section Translation.

Import MMU_cpp.

Variable mem : MemoryManager.

Lemma find_pte_spec (api : Z) (group : list PTE) (k i : nat) (pte : PTE) :
  find_pte api group k = Some (i, pte) ->
  (k <= i)%nat /\ group !! (i - k)%nat = Some pte /\
  pte_valid pte = true /\ pte_api pte = api.
Proof.
  revert k. induction group as [|p rest IH]; intros k; simpl; [discriminate|].
  destruct (pte_valid p && (pte_api p =? api)) eqn:Hm.
  - intros [= <- <-]. apply andb_true_iff in Hm as [Hv Ha].
    rewrite Nat.sub_diag. repeat split; try assumption; try lia.
  - intros Hf. destruct (IH _ Hf) as (Hle & Hl & Hv & Ha).
    split; [lia|]. split; [|split; assumption].
    replace (i - k)%nat with (S (i - S k)) by lia. exact Hl.
Qed.

Lemma TranslatePageAddress_probe (flag : XCheckTLBFlag) (ea : EffectiveAddress)
    (m : Machine) :
  IsNoExceptionFlag flag = true -> snd (TranslatePageAddress mem flag ea m) = m.
Proof.
  intros Hp. unfold TranslatePageAddress.
  destruct (sr_direct_store _); [reflexivity|].
  destruct (find_pte _ _ _) as [[i pte]|]; [|reflexivity].
  rewrite Hp. reflexivity.
Qed.

Lemma TranslateAddress_probe (flag : XCheckTLBFlag) (address : Z) (m : Machine) :
  IsNoExceptionFlag flag = true -> snd (TranslateAddress mem flag address m) = m.
Proof.
  intros Hp. unfold TranslateAddress.
  destruct (bat_mapped _); [reflexivity|]. apply TranslatePageAddress_probe, Hp.
Qed.

Lemma TranslateAddress_failure (flag : XCheckTLBFlag) (address : Z) (m : Machine) :
  Success (fst (TranslateAddress mem flag address m)) = false ->
  snd (TranslateAddress mem flag address m) = m.
Proof.
  unfold TranslateAddress. destruct (bat_mapped _); [discriminate|].
  unfold TranslatePageAddress.
  destruct (sr_direct_store _); [reflexivity|].
  destruct (find_pte _ _ _) as [[i pte]|]; [discriminate | reflexivity].
Qed.

Lemma same_guest_view_trans (m1 m2 m3 : Machine) :
  same_guest_view m1 m2 -> same_guest_view m2 m3 -> same_guest_view m1 m3.
Proof. intros [H1 H2] [H3 H4]. split; congruence. Qed.

Lemma PhysicalRead_view (U : Width) (p : Z) (m : Machine) :
  same_guest_view m (snd (PhysicalRead mem U p m)).
Proof.
  unfold PhysicalRead. destruct (IsMMIOAddress mem p); [split; reflexivity|].
  destruct (is_ram_physical mem p); split; reflexivity.
Qed.

Lemma PhysicalWrite_view (p data size : Z) (m : Machine) :
  same_guest_view m (PhysicalWrite mem p data size m).
Proof.
  unfold PhysicalWrite. destruct (IsMMIOAddress mem p); [split; reflexivity|].
  destruct (is_ram_physical mem p); split; reflexivity.
Qed.

Lemma ReadFromHardware_within_probe (flag : XCheckTLBFlag) (U : Width) (nt : bool)
    (a : Z) (m : Machine) :
  IsNoExceptionFlag flag = true ->
  same_guest_view m (snd (ReadFromHardware_within mem flag U nt a m)).
Proof.
  intros Hp. unfold ReadFromHardware_within.
  destruct (translation_active flag nt m); [|apply PhysicalRead_view].
  pose proof (TranslateAddress_probe flag a m Hp) as Hs.
  destruct (TranslateAddress mem flag a m) as [tr m1]. simpl in Hs. subst m1.
  destruct (Success tr); [apply PhysicalRead_view|].
  destruct flag; try discriminate Hp; split; reflexivity.
Qed.

Lemma WriteToHardware_within_probe (flag : XCheckTLBFlag) (nt : bool)
    (a data size : Z) (m : Machine) :
  IsNoExceptionFlag flag = true ->
  same_guest_view m (WriteToHardware_within mem flag nt a data size m).
Proof.
  intros Hp. unfold WriteToHardware_within.
  destruct (translation_active flag nt m); [|apply PhysicalWrite_view].
  pose proof (TranslateAddress_probe flag a m Hp) as Hs.
  destruct (TranslateAddress mem flag a m) as [tr m1]. simpl in Hs. subst m1.
  destruct (Success tr); [apply PhysicalWrite_view|].
  destruct flag; try discriminate Hp; split; reflexivity.
Qed.

Lemma read_bytes_probe (flag : XCheckTLBFlag) (nt : bool) (n : nat) (a acc : Z)
    (m : Machine) :
  IsNoExceptionFlag flag = true ->
  same_guest_view m (snd (read_bytes mem flag nt a n acc m)).
Proof.
  intros Hp. revert a acc m. induction n as [|n IH]; intros a acc m; simpl.
  - split; reflexivity.
  - pose proof (ReadFromHardware_within_probe flag W8 nt a m Hp) as H1.
    destruct (ReadFromHardware_within mem flag W8 nt a m) as [b m1]. simpl in H1.
    eapply same_guest_view_trans; [exact H1 | apply IH].
Qed.

Lemma write_bytes_probe (flag : XCheckTLBFlag) (nt : bool) (n : nat) (a data : Z)
    (m : Machine) :
  IsNoExceptionFlag flag = true ->
  same_guest_view m (write_bytes mem flag nt a data n m).
Proof.
  intros Hp. revert a m. induction n as [|n IH]; intros a m; simpl.
  - split; reflexivity.
  - eapply same_guest_view_trans; [|apply IH].
    apply WriteToHardware_within_probe, Hp.
Qed.

Lemma ReadFromHardware_probe (flag : XCheckTLBFlag) (U : Width) (nt : bool) (a : Z)
    (m : Machine) :
  IsNoExceptionFlag flag = true ->
  same_guest_view m (snd (ReadFromHardware mem flag U nt a m)).
Proof.
  intros Hp. unfold ReadFromHardware.
  destruct (_ && _); [apply read_bytes_probe | apply ReadFromHardware_within_probe];
    exact Hp.
Qed.

Lemma WriteToHardware_probe (flag : XCheckTLBFlag) (nt : bool) (a data size : Z)
    (m : Machine) :
  IsNoExceptionFlag flag = true ->
  same_guest_view m (WriteToHardware mem flag nt a data size m).
Proof.
  intros Hp. unfold WriteToHardware.
  destruct (_ && _); [apply write_bytes_probe | apply WriteToHardware_within_probe];
    exact Hp.
Qed.

Lemma TranslateAddress_page_hit (flag : XCheckTLBFlag) (address : Z) (m : Machine) :
  IsNoExceptionFlag flag = false ->
  tar_result (fst (TranslateAddress mem flag address m)) = PAGE_TABLE_TRANSLATED ->
  exists (hash : Z) (group : list PTE) (i : nat) (pte : PTE),
    m_pagetable m !! hash = Some group /\ group !! i = Some pte /\
    pte_valid pte = true /\ pte_api pte = ea_API (mkEffectiveAddress address) /\
    m_pagetable (snd (TranslateAddress mem flag address m)) !! hash
      = Some (<[i := touch_pte flag pte]> group) /\
    <[i := touch_pte flag pte]> group !! i = Some (touch_pte flag pte) /\
    pte_referenced (touch_pte flag pte) = true /\
    (flag = Write -> pte_changed (touch_pte flag pte) = true).
Proof.
  intros Hx. unfold TranslateAddress.
  destruct (bat_mapped _); [discriminate|].
  unfold TranslatePageAddress.
  destruct (sr_direct_store _); [discriminate|].
  set (hash := pteg_hash mem _ _).
  destruct (m_pagetable m !! hash) as [group|] eqn:Hg; simpl default;
    [|discriminate].
  destruct (find_pte _ group 0) as [[i pte]|] eqn:Hf; [|discriminate].
  intros _. destruct (find_pte_spec _ _ _ _ _ Hf) as (_ & Hl & Hv & Ha).
  rewrite Nat.sub_0_r in Hl.
  exists hash, group, i, pte. rewrite Hx. simpl.
  split; [exact Hg|]. split; [exact Hl|]. split; [exact Hv|]. split; [exact Ha|].
  split; [apply lookup_insert_eq|].
  split; [apply list_lookup_insert_eq; eapply lookup_lt_Some; exact Hl|].
  destruct flag; try discriminate Hx; split; try reflexivity; intros [=].
Qed.

End Translation.

(** C7. A translation in a probing mode ([NoException],
    [OpcodeNoException]) leaves the machine as it was, so it raises no
    guest exception and changes no referenced or changed bit, and neither
    does a hardware access made in such a mode; its failure shows only in
    the result not being a success.  In the modes [Read], [Write] and
    [Opcode] an access whose translation fails raises the mode's DSI or
    ISI, and a translation that hits a page-table entry writes the entry
    back with its referenced bit set, and its changed bit too for
    [Write]. *)
Theorem probing_modes_gate_side_effects (mem : MMU_cpp.MemoryManager)
    (flag : XCheckTLBFlag) (address : Z) (m : MMU_cpp.Machine) :
  let tr := MMU_cpp.TranslateAddress mem flag address m in
  let raised :=
    match flag with
    | Read => [MMU_cpp.DSI address false]
    | Write => [MMU_cpp.DSI address true]
    | Opcode => [MMU_cpp.ISI address]
    | NoException | OpcodeNoException => []
    end in
  (MMU_cpp.IsNoExceptionFlag flag = true ->
     snd tr = m /\
     (Success (fst tr) = false <->
        tar_result (fst tr) = PAGE_FAULT \/ tar_result (fst tr) = DIRECT_STORE_SEGMENT) /\
     (forall U nt,
        MMU_cpp.same_guest_view m (snd (MMU_cpp.ReadFromHardware mem flag U nt address m))) /\
     (forall nt data size,
        MMU_cpp.same_guest_view m (MMU_cpp.WriteToHardware mem flag nt address data size m))) /\
  (MMU_cpp.IsNoExceptionFlag flag = false ->
     (Success (fst tr) = false ->
      forall U nt data size,
        MMU_cpp.translation_active flag nt m = true ->
        (MMU_cpp.crosses_page address (sizeof U) = false ->
         MMU_cpp.m_exceptions (snd (MMU_cpp.ReadFromHardware mem flag U nt address m))
         = raised ++ MMU_cpp.m_exceptions m) /\
        (MMU_cpp.crosses_page address size = false ->
         MMU_cpp.m_exceptions (MMU_cpp.WriteToHardware mem flag nt address data size m)
         = raised ++ MMU_cpp.m_exceptions m)) /\
     (tar_result (fst tr) = PAGE_TABLE_TRANSLATED ->
      exists (hash : Z) (group : list MMU_cpp.PTE) (i : nat) (pte : MMU_cpp.PTE),
        MMU_cpp.m_pagetable m !! hash = Some group /\ group !! i = Some pte /\
        MMU_cpp.pte_valid pte = true /\
        MMU_cpp.pte_api pte = ea_API (mkEffectiveAddress address) /\
        MMU_cpp.m_pagetable (snd tr) !! hash
          = Some (<[i := MMU_cpp.touch_pte flag pte]> group) /\
        <[i := MMU_cpp.touch_pte flag pte]> group !! i = Some (MMU_cpp.touch_pte flag pte) /\
        MMU_cpp.pte_referenced (MMU_cpp.touch_pte flag pte) = true /\
        (flag = Write -> MMU_cpp.pte_changed (MMU_cpp.touch_pte flag pte) = true))).
Proof.
  cbv zeta. split.
  - intros Hp. split; [apply TranslateAddress_probe, Hp|]. split.
    + unfold Success.
      destruct (tar_result (fst (MMU_cpp.TranslateAddress mem flag address m)));
        simpl; split; intros H; try discriminate H; auto;
        destruct H as [H|H]; discriminate H.
    + split.
      * intros U nt. apply ReadFromHardware_probe, Hp.
      * intros nt data size. apply WriteToHardware_probe, Hp.
  - intros Hx. split; [|apply TranslateAddress_page_hit, Hx].
    intros Hfail U nt data size Hact.
    pose proof (TranslateAddress_failure mem flag address m Hfail) as Hsame.
    destruct (MMU_cpp.TranslateAddress mem flag address m) as [tr m1] eqn:Htr.
    simpl in Hfail, Hsame. subst m1.
    split; intros Hcross.
    + unfold MMU_cpp.ReadFromHardware. rewrite Hact, Hcross. simpl.
      unfold MMU_cpp.ReadFromHardware_within. rewrite Hact, Htr, Hfail.
      destruct flag; try discriminate Hx; reflexivity.
    + unfold MMU_cpp.WriteToHardware. rewrite Hact, Hcross. simpl.
      unfold MMU_cpp.WriteToHardware_within. rewrite Hact, Htr, Hfail.
      destruct flag; try discriminate Hx; reflexivity.
Qed.

(** ** Concrete runs *)

(** The page-table entry of [paged_machine] translates 0x70400010 to
    0x123010; a [Read] sets its referenced bit, a probe does not. *)
Example paged_machine_translation :
  fst (MMU_cpp.TranslateAddress MMU_cpp.example_memory Read 0x70400010 MMU_cpp.paged_machine)
    = mkTranslateAddressResult 0x123010 PAGE_TABLE_TRANSLATED false /\
  MMU_cpp.m_pagetable
    (snd (MMU_cpp.TranslateAddress MMU_cpp.example_memory Read 0x70400010
            MMU_cpp.paged_machine)) !! 4
    = Some [MMU_cpp.mkPTE false 1 0x77 false false false;
            MMU_cpp.mkPTE true 1 0x123 true false false] /\
  MMU_cpp.m_pagetable
    (snd (MMU_cpp.TranslateAddress MMU_cpp.example_memory NoException 0x70400010
            MMU_cpp.paged_machine)) !! 4
    = Some [MMU_cpp.mkPTE false 1 0x77 false false false;
            MMU_cpp.mkPTE true 1 0x123 false false false].
Proof. vm_compute. repeat split. Qed.

(** A 64-bit value written and read back through the page table. *)
Example paged_machine_round_trip :
  result (run MMU_cpp.example_hardware (HostTryRead W64 0x70400010 Effective)
            (final (run MMU_cpp.example_hardware
                      (HostTryWrite W64 0x1122334455667788 0x70400010 Effective)
                      MMU_cpp.paged_machine)))
  = Some (mkReadResult true 0x1122334455667788).
Proof. vm_compute. reflexivity. Qed.

Lemma HostTryWrite_Size64_short_circuit_witness :
  result (run MMU_cpp.example_hardware
            (HostTryWrite W32 (cast_u32 (Z.shiftr (bit_cast_unsigned W64 0x1122334455667788) 32))
               0x0C000000 Physical) MMU_cpp.reset_machine) = None /\
  result (run MMU_cpp.example_hardware
            (HostTryWrite W64 0x1122334455667788 0x0C000000 Physical)
            MMU_cpp.reset_machine) = None.
Proof.
  assert (H0 : result (run MMU_cpp.example_hardware
            (HostTryWrite W32 (cast_u32 (Z.shiftr (bit_cast_unsigned W64 0x1122334455667788) 32))
               0x0C000000 Physical) MMU_cpp.reset_machine) = None)
    by (vm_compute; reflexivity).
  split; [exact H0|].
  exact (proj1 (proj1 (HostTryWrite_Size64_short_circuit MMU_cpp.example_hardware
                         0x1122334455667788 0x0C000000 Physical MMU_cpp.reset_machine) H0)).
Defined.

(** C1 as stated fails for [HostWrite]: at an address that resolves to
    nothing the first 32-bit write fails (it changes no memory and only
    raises the diagnostic), and the second one is made all the same. *)
Lemma HostWrite_Size64_attempts_second_write :
  hw_HostIsRAMAddress MMU_cpp.example_hardware 0xFFFF0000 Effective MMU_cpp.reset_machine
    = false /\
  MMU_cpp.m_alerts
    (hw_WriteToHardware MMU_cpp.example_hardware NoException false 0xFFFF0000 0x11223344 4
       MMU_cpp.reset_machine) = [0xFFFF0000] /\
  MMU_cpp.m_ram
    (hw_WriteToHardware MMU_cpp.example_hardware NoException false 0xFFFF0000 0x11223344 4
       MMU_cpp.reset_machine) = MMU_cpp.m_ram MMU_cpp.reset_machine /\
  trace (run MMU_cpp.example_hardware (HostWrite W64 0x1122334455667788 0xFFFF0000)
           MMU_cpp.reset_machine)
    = [EvWriteToHardware NoException false 0xFFFF0000 0x11223344 4;
       EvWriteToHardware NoException false 0xFFFF0004 0x55667788 4] /\
  MMU_cpp.m_alerts
    (final (run MMU_cpp.example_hardware (HostWrite W64 0x1122334455667788 0xFFFF0000)
              MMU_cpp.reset_machine)) = [0xFFFF0004; 0xFFFF0000].
Proof. vm_compute. repeat split. Qed.

Lemma Virtual_space_requires_DR_witness :
  (hw_msr_DR MMU_cpp.example_hardware MMU_cpp.reset_machine = false /\
   result (run MMU_cpp.example_hardware (HostTryRead W32 0x1000 Virtual)
             MMU_cpp.reset_machine) = None) /\
  (hw_msr_DR MMU_cpp.example_hardware MMU_cpp.paged_machine = true /\
   hw_HostIsRAMAddress MMU_cpp.example_hardware 0x70400010 Virtual MMU_cpp.paged_machine
     = true /\
   result (run MMU_cpp.example_hardware (HostTryWrite W16 0xBEEF 0x70400010 Virtual)
             MMU_cpp.paged_machine) = Some (mkWriteResult true)).
Proof.
  assert (Hoff : hw_msr_DR MMU_cpp.example_hardware MMU_cpp.reset_machine = false)
    by reflexivity.
  assert (Hon : hw_msr_DR MMU_cpp.example_hardware MMU_cpp.paged_machine = true)
    by reflexivity.
  assert (Hram : hw_HostIsRAMAddress MMU_cpp.example_hardware 0x70400010 Virtual
                   MMU_cpp.paged_machine = true) by (vm_compute; reflexivity).
  split.
  - split; [exact Hoff|].
    exact (proj1 (proj1 (proj1 (Virtual_space_requires_DR MMU_cpp.example_hardware W32 0
                                  0x1000 MMU_cpp.reset_machine) Hoff))).
  - split; [exact Hon|]. split; [exact Hram|].
    exact (proj1 (proj2 (proj2 (Virtual_space_requires_DR MMU_cpp.example_hardware W16
                                  0xBEEF 0x70400010 MMU_cpp.paged_machine) Hon Hram))
             eq_refl).
Defined.

Lemma translated_flag_by_space_witness :
  result (run MMU_cpp.example_hardware (HostTryRead W32 0x70400010 Effective)
            MMU_cpp.paged_machine) = Some (mkReadResult true 0) /\
  rr_translated (mkReadResult true 0)
  = hw_msr_DR MMU_cpp.example_hardware
      (final (run MMU_cpp.example_hardware (HostTryRead W32 0x70400010 Effective)
                MMU_cpp.paged_machine)).
Proof.
  assert (Hr : result (run MMU_cpp.example_hardware (HostTryRead W32 0x70400010 Effective)
                         MMU_cpp.paged_machine) = Some (mkReadResult true 0))
    by (vm_compute; reflexivity).
  split; [exact Hr|].
  exact (proj1 (translated_flag_by_space MMU_cpp.example_hardware W32 0 0x70400010
                  Effective MMU_cpp.paged_machine) (mkReadResult true 0) Hr).
Defined.

Lemma Size64_write_word_order_witness :
  is_u64 0x1122334455667788 /\ is_u32 0x1000 /\
  is_Some (result (run MMU_cpp.example_hardware
                     (HostTryWrite W64 0x1122334455667788 0x1000 Physical)
                     MMU_cpp.reset_machine)) /\
  accesses (trace (run MMU_cpp.example_hardware
                     (HostTryWrite W64 0x1122334455667788 0x1000 Physical)
                     MMU_cpp.reset_machine))
  = [EvWriteToHardware NoException true 0x1000 0x11223344 4;
     EvWriteToHardware NoException true 0x1004 0x55667788 4].
Proof.
  assert (Hv : is_u64 0x1122334455667788) by (unfold is_u64; lia).
  assert (Ha : is_u32 0x1000) by (unfold is_u32; lia).
  assert (Hs : is_Some (result (run MMU_cpp.example_hardware
                                  (HostTryWrite W64 0x1122334455667788 0x1000 Physical)
                                  MMU_cpp.reset_machine)))
    by (exists (mkWriteResult false); vm_compute; reflexivity).
  split; [exact Hv|]. split; [exact Ha|]. split; [exact Hs|].
  exact (proj2 (proj2 (proj2 (proj2 (proj2
           (Size64_write_word_order MMU_cpp.example_hardware 0x1122334455667788 0x1000
              Physical MMU_cpp.reset_machine Hv Ha))))) Hs).
Defined.

(** C9 as stated fails for [HostTryWrite]: at the last word of RAM the
    high word is written and the low word, whose address is refused, is
    not; the only hardware write is the first one. *)
Lemma HostTryWrite_Size64_low_word_not_written :
  result (run MMU_cpp.example_hardware
            (HostTryWrite W64 0x1122334455667788 0x017FFFFC Physical)
            MMU_cpp.reset_machine) = None /\
  accesses (trace (run MMU_cpp.example_hardware
                     (HostTryWrite W64 0x1122334455667788 0x017FFFFC Physical)
                     MMU_cpp.reset_machine))
  = [EvWriteToHardware NoException true 0x017FFFFC 0x11223344 4] /\
  MMU_cpp.be_read
    (MMU_cpp.m_ram
       (final (run MMU_cpp.example_hardware
                 (HostTryWrite W64 0x1122334455667788 0x017FFFFC Physical)
                 MMU_cpp.reset_machine))) 0x017FFFFC 4 = 0x11223344 /\
  MMU_cpp.be_read
    (MMU_cpp.m_ram
       (final (run MMU_cpp.example_hardware
                 (HostTryWrite W64 0x1122334455667788 0x017FFFFC Physical)
                 MMU_cpp.reset_machine))) 0x01800000 4 = 0.
Proof. vm_compute. repeat split. Qed.

Lemma HostTry_guarded_by_HostIsRAMAddress_witness :
  (hw_HostIsRAMAddress MMU_cpp.example_hardware 0x0C000000 Physical MMU_cpp.reset_machine
     = false /\
   result (run MMU_cpp.example_hardware (HostTryRead W32 0x0C000000 Physical)
             MMU_cpp.reset_machine) = None) /\
  (is_Some (result (run MMU_cpp.example_hardware (HostTryRead W32 0x1000 Physical)
                      MMU_cpp.reset_machine)) /\
   hw_HostIsRAMAddress MMU_cpp.example_hardware 0x1000 Physical MMU_cpp.reset_machine
     = true).
Proof.
  assert (Hno : hw_HostIsRAMAddress MMU_cpp.example_hardware 0x0C000000 Physical
                  MMU_cpp.reset_machine = false) by (vm_compute; reflexivity).
  assert (Hsome : is_Some (result (run MMU_cpp.example_hardware
                                     (HostTryRead W32 0x1000 Physical)
                                     MMU_cpp.reset_machine)))
    by (exists (mkReadResult false 0); vm_compute; reflexivity).
  split.
  - split; [exact Hno|].
    exact (proj1 (proj1 (proj1 (proj2 (HostTry_guarded_by_HostIsRAMAddress
                                         MMU_cpp.example_hardware W32 0 0x0C000000 Physical
                                         MMU_cpp.reset_machine)) Hno))).
  - split; [exact Hsome|].
    exact (proj1 (proj2 (proj2 (HostTry_guarded_by_HostIsRAMAddress
                                  MMU_cpp.example_hardware W32 0 0x1000 Physical
                                  MMU_cpp.reset_machine))) Hsome).
Defined.

Lemma Physical_write_then_read_witness :
  (is_u32 0x1000 /\ 0x1000 mod sizeof W64 = 0 /\
   0 <= 0x1122334455667788 < 2 ^ bits_of W64 /\
   MMU_cpp.HostIsRAMAddress MMU_cpp.example_memory 0x1000 Physical MMU_cpp.reset_machine
     = true /\
   MMU_cpp.HostIsRAMAddress MMU_cpp.example_memory (0x1000 + 4) Physical
     MMU_cpp.reset_machine = true) /\
  result (run (MMU_cpp.hardware MMU_cpp.example_memory) (HostTryRead W64 0x1000 Physical)
            (final (run (MMU_cpp.hardware MMU_cpp.example_memory)
                      (HostTryWrite W64 0x1122334455667788 0x1000 Physical)
                      MMU_cpp.reset_machine)))
  = Some (mkReadResult false 0x1122334455667788) /\
  (MMU_cpp.HostIsRAMAddress MMU_cpp.example_memory 0x0C000000 Physical
     MMU_cpp.reset_machine = false /\
   result (run (MMU_cpp.hardware MMU_cpp.example_memory)
             (HostTryWrite W32 0xDEADBEEF 0x0C000000 Physical) MMU_cpp.reset_machine)
   = None).
Proof.
  assert (H0 : is_u32 0x1000) by (unfold is_u32; lia).
  assert (H1 : 0x1000 mod sizeof W64 = 0) by reflexivity.
  assert (H2 : MMU_cpp.HostIsRAMAddress MMU_cpp.example_memory 0x1000 Physical
                 MMU_cpp.reset_machine = true) by (vm_compute; reflexivity).
  assert (H3 : 0 <= 0x1122334455667788 < 2 ^ bits_of W64)
    by (change (2 ^ bits_of W64) with (2 ^ 64); lia).
  assert (H4 : MMU_cpp.HostIsRAMAddress MMU_cpp.example_memory (0x1000 + 4) Physical
                 MMU_cpp.reset_machine = true) by (vm_compute; reflexivity).
  assert (G0 : is_u32 0x0C000000) by (unfold is_u32; lia).
  assert (G1 : 0x0C000000 mod sizeof W32 = 0) by reflexivity.
  assert (G2 : 0 <= 0xDEADBEEF < 2 ^ bits_of W32)
    by (change (2 ^ bits_of W32) with (2 ^ 32); lia).
  assert (G3 : MMU_cpp.HostIsRAMAddress MMU_cpp.example_memory 0x0C000000 Physical
                 MMU_cpp.reset_machine = false) by (vm_compute; reflexivity).
  split; [split; [exact H0 | split; [exact H1 | split; [exact H3 | split;
            [exact H2 | exact H4]]]]|].
  split.
  - exact (proj2 (proj1 (Physical_write_then_read MMU_cpp.example_memory W64 0x1000
                           0x1122334455667788 MMU_cpp.reset_machine H0 H1 H3)
                    H2 (fun _ => H4))).
  - split; [exact G3|].
    exact (proj1 (proj2 (Physical_write_then_read MMU_cpp.example_memory W32 0x0C000000
                           0xDEADBEEF MMU_cpp.reset_machine G0 G1 G2) G3)).
Defined.

(** C8 as stated fails at an aligned address that is not RAM: the write
    is refused and the read returns no value. *)
Lemma Physical_round_trip_fails_outside_RAM :
  0x0C000000 mod sizeof W32 = 0 /\
  result (run MMU_cpp.example_hardware (HostTryWrite W32 0xDEADBEEF 0x0C000000 Physical)
            MMU_cpp.reset_machine) = None /\
  result (run MMU_cpp.example_hardware (HostTryRead W32 0x0C000000 Physical)
            (final (run MMU_cpp.example_hardware
                      (HostTryWrite W32 0xDEADBEEF 0x0C000000 Physical)
                      MMU_cpp.reset_machine))) = None /\
  result (run MMU_cpp.example_hardware (HostTryRead W32 0x0C000000 Physical)
            (final (run MMU_cpp.example_hardware
                      (HostTryWrite W32 0xDEADBEEF 0x0C000000 Physical)
                      MMU_cpp.reset_machine)))
  <> Some (mkReadResult false 0xDEADBEEF).
Proof. vm_compute. repeat split. discriminate. Qed.

Lemma probing_modes_gate_side_effects_witness :
  (MMU_cpp.IsNoExceptionFlag NoException = true /\
   snd (MMU_cpp.TranslateAddress MMU_cpp.example_memory NoException 0x70400010
          MMU_cpp.paged_machine) = MMU_cpp.paged_machine) /\
  (MMU_cpp.IsNoExceptionFlag Write = false /\
   Success (fst (MMU_cpp.TranslateAddress MMU_cpp.example_memory Write 0x70800010
                   MMU_cpp.paged_machine)) = false /\
   MMU_cpp.translation_active Write false MMU_cpp.paged_machine = true /\
   MMU_cpp.crosses_page 0x70800010 4 = false /\
   MMU_cpp.m_exceptions
     (MMU_cpp.WriteToHardware MMU_cpp.example_memory Write false 0x70800010 0xDEADBEEF 4
        MMU_cpp.paged_machine)
   = [MMU_cpp.DSI 0x70800010 true] ++ MMU_cpp.m_exceptions MMU_cpp.paged_machine).
Proof.
  assert (Hp : MMU_cpp.IsNoExceptionFlag NoException = true) by reflexivity.
  assert (Hx : MMU_cpp.IsNoExceptionFlag Write = false) by reflexivity.
  assert (Hf : Success (fst (MMU_cpp.TranslateAddress MMU_cpp.example_memory Write
                               0x70800010 MMU_cpp.paged_machine)) = false)
    by (vm_compute; reflexivity).
  assert (Ha : MMU_cpp.translation_active Write false MMU_cpp.paged_machine = true)
    by reflexivity.
  assert (Hc : MMU_cpp.crosses_page 0x70800010 4 = false) by reflexivity.
  split.
  - split; [exact Hp|].
    exact (proj1 (proj1 (probing_modes_gate_side_effects MMU_cpp.example_memory
                           NoException 0x70400010 MMU_cpp.paged_machine) Hp)).
  - split; [exact Hx|]. split; [exact Hf|]. split; [exact Ha|]. split; [exact Hc|].
    exact (proj2 (proj1 (proj2 (probing_modes_gate_side_effects MMU_cpp.example_memory
                                  Write 0x70800010 MMU_cpp.paged_machine) Hx)
                    Hf W32 false 0xDEADBEEF 4 Ha) Hc).
Defined.

(** * Further properties of the header's inline functions

    All of them hold over every implementation of the out-of-line
    members. *)

Ltac case_calls :=
  repeat match goal with
    | |- context [hw_HostIsRAMAddress ?H ?a ?sp ?s] =>
        destruct (hw_HostIsRAMAddress H a sp s) eqn:?; simpl
    | |- context [hw_msr_DR ?H ?s] =>
        destruct (hw_msr_DR H s) eqn:?; simpl
    end.

(** X1. The host facade only probes: whatever the width, the space and
    the outcome, [HostRead], [HostTryRead], [HostWrite] and [HostTryWrite]
    call nothing but [HostIsRAMAddress] and hardware accesses in the mode
    [NoException]; in particular they never reach the memory-breakpoint
    hook and never use a mode that raises a guest exception. *)
Theorem host_facade_only_probes (H : Hardware) (T : Width) (var address : Z)
    (space : RequestedAddressSpace) (s : hw_state H) :
  forallb host_event (trace (run H (HostRead T address) s)) = true /\
  forallb host_event (trace (run H (HostTryRead T address space) s)) = true /\
  forallb host_event (trace (run H (HostWrite T var address) s)) = true /\
  forallb host_event (trace (run H (HostTryWrite T var address space) s)) = true.
Proof.
  split; [reflexivity|]. split; [|split].
  - unfold_facade. simpl. destruct space; case_calls; reflexivity.
  - destruct T; reflexivity.
  - destruct T; unfold_facade; simpl; destruct space; case_calls; reflexivity.
Qed.

(** X2. [HostTryRead] is all or nothing.  When the address is RAM in the
    requested space (and MSR.DR is on, for [Virtual]) it makes exactly one
    hardware read, in the mode [NoException], untranslated exactly for
    [Physical], and returns the value that read gave, leaving the state
    that read left; otherwise it returns an absent result, makes no
    access and leaves the state as it was. *)
Theorem HostTryRead_all_or_nothing (H : Hardware) (T : Width) (address : Z)
    (space : RequestedAddressSpace) (s : hw_state H) :
  let rd := run H (HostTryRead T address space) s in
  let nt := never_translate_of space in
  let r := hw_ReadFromHardware H NoException T nt address s in
  if host_try_permitted H address space s then
    result rd = Some (mkReadResult
                        match space with
                        | Effective => hw_msr_DR H (snd r)
                        | Physical => false
                        | Virtual => true
                        end (fst r)) /\
    final rd = snd r /\
    accesses (trace rd) = [EvReadFromHardware NoException T nt address (fst r)]
  else result rd = None /\ final rd = s /\ accesses (trace rd) = [].
Proof.
  cbv zeta. unfold host_try_permitted, never_translate_of. unfold_facade. simpl.
  destruct space; case_calls; repeat split; reflexivity.
Qed.

(** X3. [HostTryWrite] with an access type of 8, 16 or 32 bits is all or
    nothing.  Under the same condition as for a read it makes exactly one
    hardware write, whose size is that of the access type [T] and whose
    data is the argument's bit pattern at the width of the argument's own
    type [V], narrowed to 32 bits, and it reports success; otherwise it
    returns an absent result, writes nothing and leaves the state as it
    was.  The data is not cut down to the access type: it fits the size
    written when the argument has that type, while a wider argument goes
    out whole. *)
Theorem HostTryWrite_narrow_all_or_nothing (H : Hardware) (V T : Width) (var address : Z)
    (space : RequestedAddressSpace) (s : hw_state H) :
  Size64 T = false ->
  let wr := run H (HostTryWrite_small_auto V T var address space) s in
  let nt := never_translate_of space in
  let data := cast_u32 (var mod 2 ^ bits_of V) in
  let s1 := hw_WriteToHardware H NoException nt address data (sizeof T) s in
  (if host_try_permitted H address space s then
     result wr = Some (mkWriteResult
                         match space with
                         | Effective => hw_msr_DR H s1
                         | Physical => false
                         | Virtual => true
                         end) /\
     final wr = s1 /\
     accesses (trace wr) = [EvWriteToHardware NoException nt address data (sizeof T)]
   else result wr = None /\ final wr = s /\ accesses (trace wr) = []) /\
  (V = T -> data = var mod 2 ^ bits_of T /\
            HostTryWrite T var address space
            = HostTryWrite_small_auto V T var address space) /\
  (bits_of V <= 32 -> data = var mod 2 ^ bits_of V).
Proof.
  intros Hsz. cbv zeta. split; [|split].
  - unfold host_try_permitted, never_translate_of, HostTryWrite_small_auto,
      call_HostIsRAMAddress, call_WriteToHardware, load_msr_DR, logged, bit_cast_unsigned.
    simpl. destruct space; case_calls; repeat split; reflexivity.
  - intros ->. split.
    + unfold cast_u32. apply Z.mod_small.
      pose proof (Z.mod_pos_bound var (2 ^ bits_of T)) as Hb.
      destruct T; try discriminate Hsz;
        match goal with
        | |- context [bits_of ?W] =>
            let c := eval vm_compute in (bits_of W) in change (bits_of W) with c in *
        end; lia.
    + destruct T; try discriminate Hsz; reflexivity.
  - intros Hb. unfold cast_u32. apply Z.mod_small.
    pose proof (Z.mod_pos_bound var (2 ^ bits_of V)) as Hm.
    destruct V;
      match goal with
      | |- context [bits_of ?W] =>
          let c := eval vm_compute in (bits_of W) in change (bits_of W) with c in *
      end; lia.
Qed.

Lemma HostTryWrite_narrow_all_or_nothing_witness :
  Size64 W16 = false /\
  host_try_permitted MMU_cpp.example_hardware 0x1000 Physical MMU_cpp.reset_machine = true /\
  accesses (trace (run MMU_cpp.example_hardware
                     (HostTryWrite_small_auto W32 W16 0x12345 0x1000 Physical)
                     MMU_cpp.reset_machine))
  = [EvWriteToHardware NoException true 0x1000 0x12345 2].
Proof.
  assert (Hsz : Size64 W16 = false) by reflexivity.
  assert (Hok : host_try_permitted MMU_cpp.example_hardware 0x1000 Physical
                  MMU_cpp.reset_machine = true) by (vm_compute; reflexivity).
  split; [exact Hsz|]. split; [exact Hok|].
  pose proof (HostTryWrite_narrow_all_or_nothing MMU_cpp.example_hardware W32 W16
                0x12345 0x1000 Physical MMU_cpp.reset_machine Hsz) as Hthm.
  cbv zeta in Hthm. destruct Hthm as [Hthm _]. rewrite Hok in Hthm.
  exact (proj2 (proj2 Hthm)).
Defined.

(** X4. A 64-bit [HostTryWrite] is not atomic.  When its first word goes
    through and the second does not resolve to RAM in the state the first
    write left, the result is absent although the first word has been
    written: the final state is the one after that single write. *)
Theorem HostTryWrite_Size64_partial_write (H : Hardware) (var address : Z)
    (space : RequestedAddressSpace) (s : hw_state H) :
  let nt := never_translate_of space in
  let hi := cast_u32 (Z.shiftr (bit_cast_unsigned W64 var) 32) in
  let s1 := hw_WriteToHardware H NoException nt address hi 4 s in
  let wr := run H (HostTryWrite W64 var address space) s in
  host_try_permitted H address space s = true ->
  hw_HostIsRAMAddress H (cast_u32 (address + 4)) space s1 = false ->
  result wr = None /\ final wr = s1 /\
  accesses (trace wr) = [EvWriteToHardware NoException nt address hi 4].
Proof.
  cbv zeta. unfold host_try_permitted, never_translate_of.
  intros Hok Hno. unfold_facade. simpl.
  destruct (hw_HostIsRAMAddress H address space s); simpl in *; [|discriminate].
  destruct space; simpl in *.
  - rewrite Hno. simpl. repeat split; reflexivity.
  - rewrite Hno. simpl. repeat split; reflexivity.
  - rewrite Hok. simpl. rewrite Hno. simpl. repeat split; reflexivity.
Qed.

Lemma HostTryWrite_Size64_partial_write_witness :
  host_try_permitted MMU_cpp.example_hardware 0x017FFFFC Physical MMU_cpp.reset_machine
    = true /\
  result (run MMU_cpp.example_hardware (HostTryWrite W64 0x1122334455667788 0x017FFFFC Physical)
            MMU_cpp.reset_machine) = None /\
  MMU_cpp.be_read
    (MMU_cpp.m_ram
       (final (run MMU_cpp.example_hardware
                 (HostTryWrite W64 0x1122334455667788 0x017FFFFC Physical)
                 MMU_cpp.reset_machine))) 0x017FFFFC 4 = 0x11223344.
Proof.
  assert (Hok : host_try_permitted MMU_cpp.example_hardware 0x017FFFFC Physical
                  MMU_cpp.reset_machine = true) by (vm_compute; reflexivity).
  assert (Hno : hw_HostIsRAMAddress MMU_cpp.example_hardware (cast_u32 (0x017FFFFC + 4))
                  Physical
                  (hw_WriteToHardware MMU_cpp.example_hardware NoException
                     (never_translate_of Physical) 0x017FFFFC
                     (cast_u32 (Z.shiftr (bit_cast_unsigned W64 0x1122334455667788) 32)) 4
                     MMU_cpp.reset_machine) = false) by (vm_compute; reflexivity).
  pose proof (HostTryWrite_Size64_partial_write MMU_cpp.example_hardware
                0x1122334455667788 0x017FFFFC Physical MMU_cpp.reset_machine Hok Hno)
    as (Hr & Hf & _).
  split; [exact Hok|]. split; [exact Hr|].
  rewrite Hf. vm_compute. reflexivity.
Defined.

(** X5. Where the [Try] variants succeed in [Effective] space they do what
    the plain variants do: a present [HostTryRead] carries the value
    [HostRead] returns and leaves the same state, and a present
    [HostTryWrite], of any width, makes the hardware writes of [HostWrite]
    and leaves the same state. *)
Theorem HostTry_Effective_agrees_with_Host (H : Hardware) (T : Width) (var address : Z)
    (s : hw_state H) :
  let rd := run H (HostTryRead T address Effective) s in
  let wr := run H (HostTryWrite T var address Effective) s in
  (forall r, result rd = Some r ->
     rr_value r = result (run H (HostRead T address) s) /\
     final rd = final (run H (HostRead T address) s)) /\
  (is_Some (result wr) ->
     accesses (trace wr) = trace (run H (HostWrite T var address) s) /\
     final wr = final (run H (HostWrite T var address) s)).
Proof.
  cbv zeta. split.
  - intros r. unfold_facade. unfold HostRead, call_ReadFromHardware. simpl.
    case_calls; intros Hr; try absurd_some; injection Hr as <-; split; reflexivity.
  - destruct T; unfold_facade; simpl; case_calls;
      intros Hs; try absurd_some; split; reflexivity.
Qed.

Lemma HostTry_Effective_agrees_with_Host_witness :
  is_Some (result (run MMU_cpp.example_hardware
                     (HostTryWrite W64 0x1122334455667788 0x70400010 Effective)
                     MMU_cpp.paged_machine)) /\
  final (run MMU_cpp.example_hardware
           (HostTryWrite W64 0x1122334455667788 0x70400010 Effective) MMU_cpp.paged_machine)
  = final (run MMU_cpp.example_hardware
             (HostWrite W64 0x1122334455667788 0x70400010) MMU_cpp.paged_machine).
Proof.
  assert (Hs : is_Some (result (run MMU_cpp.example_hardware
                                  (HostTryWrite W64 0x1122334455667788 0x70400010 Effective)
                                  MMU_cpp.paged_machine)))
    by (exists (mkWriteResult true); vm_compute; reflexivity).
  split; [exact Hs|].
  exact (proj2 (proj2 (HostTry_Effective_agrees_with_Host MMU_cpp.example_hardware W64
                         0x1122334455667788 0x70400010 MMU_cpp.paged_machine) Hs)).
Defined.

(** X6. The guest-facing [Write] is the host [HostWrite] in the mode
    [Write], behind the memory-breakpoint hook: for every width it first
    calls [Memcheck] once, with the whole value and the whole size (8 for
    a 64-bit value, not once per word), and then makes the hardware writes
    of [HostWrite] with the flag [Write].  [Read] makes one hardware read
    in the mode [Read], then shows [Memcheck] the value read, and returns
    that value. *)
Theorem guest_access_shape (H : Hardware) (T : Width) (var address : Z) (s : hw_state H) :
  let v := bit_cast_unsigned T var in
  let x := fst (hw_ReadFromHardware H Read T false address s) in
  trace (run H (Write_ T var address) s)
  = EvMemcheck address v true (sizeof T)
      :: map (with_flag Write) (trace (run H (HostWrite T var address) s)) /\
  result (run H (Read_ T address) s) = x /\
  trace (run H (Read_ T address) s)
  = [EvReadFromHardware Read T false address x; EvMemcheck address x false (sizeof T)].
Proof.
  cbv zeta. split; [destruct T; reflexivity|]. split; reflexivity.
Qed.

Lemma narrow_data_fits (T : Width) (var : Z) :
  Size64 T = false ->
  0 <= cast_u32 (bit_cast_unsigned T var) < 2 ^ (8 * sizeof T).
Proof.
  intros Hsz. unfold cast_u32, bit_cast_unsigned, bits_of.
  pose proof (Z.mod_pos_bound var (2 ^ (8 * sizeof T))) as Hb.
  destruct T; try discriminate Hsz; simpl sizeof in *;
    rewrite Z.mod_small; lia.
Qed.

Lemma write_fits_narrow (T : Width) (flag : XCheckTLBFlag) (nt : bool) (a var : Z) :
  Size64 T = false ->
  write_fits (EvWriteToHardware flag nt a (cast_u32 (bit_cast_unsigned T var)) (sizeof T))
  = true.
Proof.
  intros Hsz. pose proof (narrow_data_fits T var Hsz) as Hb. unfold write_fits.
  apply andb_true_intro. split; [apply andb_true_intro; split|].
  - destruct T; try discriminate Hsz; reflexivity.
  - apply Z.leb_le. lia.
  - apply Z.ltb_lt. lia.
Qed.

Lemma write_fits_word (flag : XCheckTLBFlag) (nt : bool) (a x : Z) :
  write_fits (EvWriteToHardware flag nt a (cast_u32 x) 4) = true.
Proof.
  unfold write_fits, cast_u32. pose proof (Z.mod_pos_bound x (2 ^ 32) ltac:(lia)) as Hb.
  apply andb_true_intro. split; [apply andb_true_intro; split|].
  - reflexivity.
  - apply Z.leb_le. lia.
  - apply Z.ltb_lt. change (2 ^ (8 * 4)) with (2 ^ 32). lia.
Qed.

(** X7. Every hardware write the facade and the guest [Write] issue for
    a value of the access type has size 1, 2 or 4, never 8, and data that
    fits in that many bytes: a 64-bit value always goes out as 32-bit
    words and a narrow one is truncated to its width. *)
Theorem issued_writes_fit (H : Hardware) (T : Width) (var address : Z)
    (space : RequestedAddressSpace) (s : hw_state H) :
  Forall (fun e => write_fits e = true) (trace (run H (HostWrite T var address) s)) /\
  Forall (fun e => write_fits e = true) (trace (run H (HostTryWrite T var address space) s)) /\
  Forall (fun e => write_fits e = true) (trace (run H (Write_ T var address) s)).
Proof.
  assert (Hn : forall U fl nt a, Size64 U = false ->
            write_fits (EvWriteToHardware fl nt a (cast_u32 (bit_cast_unsigned U var))
                          (sizeof U)) = true)
    by (intros; apply write_fits_narrow; assumption).
  pose proof write_fits_word as Hw.
  split; [|split]; destruct T; unfold HostWrite, HostTryWrite, Write_;
    cbn [Size64 sizeof Z.eqb Pos.eqb];
    unfold HostTryWrite_Size64, HostTryWrite_small, HostWrite_Size64, HostWrite_small,
      Write_Size64, Write_small, call_HostIsRAMAddress, call_WriteToHardware,
      call_Memcheck, load_msr_DR, logged;
    rewrite ?cast_u32_bit_cast_W32; simpl;
    try (destruct space); case_calls;
    repeat (apply Forall_cons; split; [first [reflexivity | apply Hw | apply (Hn W8); reflexivity | apply (Hn W16); reflexivity | apply (Hn W32); reflexivity]|]);
    apply Forall_nil_2.
Qed.

(** X8. [WriteFromJit] takes its value as a 32-bit word (a 64-bit one for
    a 64-bit access).  It is [Write] of the same value whenever the value
    fits the access type; for a narrower access it otherwise hands the
    whole 32-bit word, unmasked, to [Memcheck] and to [WriteToHardware]
    together with the narrow size. *)
Theorem WriteFromJit_passes_word (H : Hardware) (T : Width) (var address : Z)
    (s : hw_state H) :
  (0 <= var < 2 ^ bits_of T -> WriteFromJit T var address = Write_ T var address) /\
  (Size64 T = false -> is_u32 var ->
   trace (run H (WriteFromJit T var address) s)
   = [EvMemcheck address var true (sizeof T);
      EvWriteToHardware Write false address var (sizeof T)]).
Proof.
  split.
  - intros Hv. destruct T; unfold WriteFromJit, Write_; cbn [Size64 sizeof Z.eqb Pos.eqb];
      try reflexivity;
      unfold Write_small, Write_small_auto, make_atleast_u32, bit_cast_unsigned;
      cbn [Size64 sizeof Z.eqb Pos.eqb];
      match type of Hv with
      | context [bits_of ?W] =>
          let c := eval vm_compute in (bits_of W) in change (bits_of W) with c in *
      end;
      change (bits_of W32) with 32;
      rewrite !(Z.mod_small var) by lia; reflexivity.
  - unfold is_u32. intros Hsz Hv.
    assert (Hc : cast_u32 (bit_cast_unsigned W32 var) = var /\ bit_cast_unsigned W32 var = var).
    { unfold cast_u32, bit_cast_unsigned. change (bits_of W32) with 32.
      rewrite !(Z.mod_small var) by lia. split; reflexivity. }
    destruct Hc as [Hc1 Hc2].
    destruct T; try discriminate Hsz;
      unfold WriteFromJit, Write_small_auto, make_atleast_u32, call_Memcheck,
        call_WriteToHardware;
      cbn [Size64 sizeof Z.eqb Pos.eqb]; rewrite Hc1, Hc2; reflexivity.
Qed.

Lemma WriteFromJit_passes_word_witness :
  Size64 W8 = false /\ is_u32 0x1234 /\
  trace (run MMU_cpp.example_hardware (WriteFromJit W8 0x1234 0x1000) MMU_cpp.reset_machine)
  = [EvMemcheck 0x1000 0x1234 true 1; EvWriteToHardware Write false 0x1000 0x1234 1].
Proof.
  assert (Hsz : Size64 W8 = false) by reflexivity.
  assert (Hv : is_u32 0x1234) by (unfold is_u32; lia).
  split; [exact Hsz|]. split; [exact Hv|].
  exact (proj2 (WriteFromJit_passes_word MMU_cpp.example_hardware W8 0x1234 0x1000
                  MMU_cpp.reset_machine) Hsz Hv).
Defined.

(** X9. The flags of a [TranslateResult] are nested in every value a
    constructor builds: from-BAT implies translated, translated implies
    valid, and the only invalid value is the default one, whose address
    is zero. *)
Theorem TranslateResult_flags_nested (r : TranslateResult) :
  TranslateResult_built r ->
  (tr_from_bat r = true -> tr_translated r = true) /\
  (tr_translated r = true -> tr_valid r = true) /\
  (tr_valid r = false -> r = TranslateResult_default /\ tr_address r = 0).
Proof.
  intros [| a | b a]; simpl; repeat split; intros; try reflexivity; try discriminate.
Qed.

Lemma TranslateResult_flags_nested_witness :
  TranslateResult_built (TranslateResult_translated true 0x1000) /\
  tr_valid (TranslateResult_translated true 0x1000) = true.
Proof.
  assert (Hb : TranslateResult_built (TranslateResult_translated true 0x1000))
    by constructor.
  split; [exact Hb|].
  destruct (TranslateResult_flags_nested _ Hb) as (H1 & H2 & _).
  exact (H2 (H1 eq_refl)).
Defined.

(** X10. The members of the [EffectiveAddress] union overlap as the
    header's page constants say: [offset] is the address under
    [HW_PAGE_MASK], [page_index] the 16 bits above [HW_PAGE_INDEX_SHIFT],
    [API] the upper six bits of [page_index] (those under
    [HW_PAGE_INDEX_MASK] after a shift by 22), and [SR] what is left above
    bit 28. *)
Theorem EffectiveAddress_fields_overlap (address : Z) :
  is_u32 address ->
  let ea := mkEffectiveAddress address in
  ea_offset ea = Z.land address HW_PAGE_MASK /\
  ea_page_index ea = Z.land (Z.shiftr address HW_PAGE_INDEX_SHIFT) 0xFFFF /\
  ea_API ea = Z.shiftr (ea_page_index ea) 10 /\
  ea_API ea = Z.land (Z.shiftr address 22) HW_PAGE_INDEX_MASK /\
  ea_SR ea = Z.shiftr address 28 /\
  Z.shiftr address HW_PAGE_INDEX_SHIFT = ea_SR ea * 2 ^ 16 + ea_page_index ea.
Proof.
  unfold is_u32. intros Hu. cbv zeta.
  unfold ea_offset, ea_page_index, ea_API, ea_SR. simpl Hex.
  assert (Hsr : BitField 28 4 address = Z.shiftr address 28).
  { rewrite BitField_div_mod, Z.shiftr_div_pow2 by lia. apply Z.mod_small.
    split; [apply Z.div_pos; lia | apply Z.div_lt_upper_bound; lia]. }
  split; [|split; [|split; [|split; [|split]]]].
  - apply Z.bits_inj'. intros i Hi. rewrite BitField_testbit by lia.
    change HW_PAGE_MASK with (Z.ones 12).
    rewrite Z.land_spec, Z.testbit_ones_nonneg, Z.add_0_r by lia. apply andb_comm.
  - apply Z.bits_inj'. intros i Hi. rewrite BitField_testbit by lia.
    change 65535 with (Z.ones 16). unfold HW_PAGE_INDEX_SHIFT.
    rewrite Z.land_spec, Z.testbit_ones_nonneg, Z.shiftr_spec by lia. apply andb_comm.
  - apply Z.bits_inj'. intros i Hi.
    rewrite Z.shiftr_spec, !BitField_testbit by lia.
    replace (i + 10 + 12) with (i + 22) by lia.
    destruct (Z.ltb_spec i 6), (Z.ltb_spec (i + 10) 16); try reflexivity; lia.
  - apply Z.bits_inj'. intros i Hi. rewrite BitField_testbit by lia.
    change HW_PAGE_INDEX_MASK with (Z.ones 6).
    rewrite Z.land_spec, Z.testbit_ones_nonneg, Z.shiftr_spec by lia. apply andb_comm.
  - exact Hsr.
  - rewrite Hsr. rewrite BitField_div_mod by lia. unfold HW_PAGE_INDEX_SHIFT.
    rewrite !Z.shiftr_div_pow2 by lia.
    pose proof (Z.div_mod (address / 2 ^ 12) (2 ^ 16) ltac:(lia)) as Hd.
    rewrite Z.div_div in Hd by lia. change (2 ^ 12 * 2 ^ 16) with (2 ^ 28) in Hd. lia.
Qed.

Lemma EffectiveAddress_fields_overlap_witness :
  is_u32 0x80401234 /\
  ea_API (mkEffectiveAddress 0x80401234)
  = Z.shiftr (ea_page_index (mkEffectiveAddress 0x80401234)) 10.
Proof.
  assert (Hu : is_u32 0x80401234) by (unfold is_u32; lia).
  split; [exact Hu|].
  exact (proj1 (proj2 (proj2 (EffectiveAddress_fields_overlap 0x80401234 Hu)))).
Defined.

(** X11. The facade consults MSR.DR only for the spaces [Effective] and
    [Virtual]: an access requested in [Physical] space, and the plain
    [HostRead], [HostWrite], [Read] and [Write], run the same whatever
    MSR.DR reads as. *)
Theorem Physical_space_ignores_DR (H : Hardware) (dr : hw_state H -> bool) (T : Width)
    (var address : Z) (s : hw_state H) :
  run (with_msr_DR H dr) (HostTryRead T address Physical) s
  = run H (HostTryRead T address Physical) s /\
  run (with_msr_DR H dr) (HostTryWrite T var address Physical) s
  = run H (HostTryWrite T var address Physical) s /\
  run (with_msr_DR H dr) (HostRead T address) s = run H (HostRead T address) s /\
  run (with_msr_DR H dr) (HostWrite T var address) s = run H (HostWrite T var address) s /\
  run (with_msr_DR H dr) (Read_ T address) s = run H (Read_ T address) s /\
  run (with_msr_DR H dr) (Write_ T var address) s = run H (Write_ T var address) s.
Proof.
  split; [|split; [|split; [|split; [|split]]]].
  - unfold_facade. simpl. case_calls; reflexivity.
  - destruct T; unfold_facade; simpl; case_calls; reflexivity.
  - reflexivity.
  - destruct T; reflexivity.
  - reflexivity.
  - destruct T; reflexivity.
Qed.

(** X12. The two 64-bit [Try] accesses are guarded differently.  A 64-bit
    [HostTryRead] succeeds exactly when its address passes the check, the
    word four bytes further never being looked at; a 64-bit
    [HostTryWrite] succeeds exactly when the address passes the check and
    then, in the state the first write left, the address four bytes
    further (in 32-bit arithmetic) passes it too. *)
Theorem Size64_guards_differ (H : Hardware) (var address : Z)
    (space : RequestedAddressSpace) (s : hw_state H) :
  let nt := never_translate_of space in
  let hi := cast_u32 (Z.shiftr (bit_cast_unsigned W64 var) 32) in
  let s1 := hw_WriteToHardware H NoException nt address hi 4 s in
  (is_Some (result (run H (HostTryRead W64 address space) s)) <->
     host_try_permitted H address space s = true) /\
  (is_Some (result (run H (HostTryWrite W64 var address space) s)) <->
     host_try_permitted H address space s = true /\
     host_try_permitted H (cast_u32 (address + 4)) space s1 = true).
Proof.
  cbv zeta. unfold host_try_permitted, never_translate_of. split.
  - unfold_facade. simpl. destruct space; case_calls; split; intros Hs;
      try absurd_some; try reflexivity; try discriminate; eexists; reflexivity.
  - unfold_facade. simpl. destruct space; simpl;
      destruct (hw_HostIsRAMAddress H address _ s); simpl;
      try (destruct (hw_msr_DR H s); simpl);
      try (split; [intros Hs; absurd_some | intros [Hs _]; discriminate Hs]);
      match goal with
      | |- context [hw_HostIsRAMAddress H ?a ?sp ?st] =>
          destruct (hw_HostIsRAMAddress H a sp st); simpl
      end;
      try (match goal with
           | |- context [hw_msr_DR H ?st] => destruct (hw_msr_DR H st); simpl
           end);
      split; intros Hs; try absurd_some; try (split; reflexivity);
      try (destruct Hs as [_ Hs]; discriminate Hs); eexists; reflexivity.
Qed.

(** X13. The low word of a 64-bit write goes to the address plus four
    unless that leaves the 32-bit address space: for the last four
    addresses it wraps round to the bottom, so a 64-bit write at
    0xFFFFFFFC puts its low word at address 0.  This holds for
    [HostWrite] and the guest [Write] alike. *)
Theorem Size64_low_word_address (H : Hardware) (var address : Z) (s : hw_state H) :
  is_u32 address ->
  let hi := cast_u32 (Z.shiftr (bit_cast_unsigned W64 var) 32) in
  let lo := cast_u32 (bit_cast_unsigned W64 var) in
  let low_address := if address <? 2 ^ 32 - 4 then address + 4 else address + 4 - 2 ^ 32 in
  0 <= low_address < 2 ^ 32 /\
  trace (run H (HostWrite W64 var address) s)
  = [EvWriteToHardware NoException false address hi 4;
     EvWriteToHardware NoException false low_address lo 4] /\
  accesses (trace (run H (Write_ W64 var address) s))
  = [EvWriteToHardware Write false address hi 4;
     EvWriteToHardware Write false low_address lo 4].
Proof.
  unfold is_u32. intros Ha. cbv zeta.
  assert (Hw : cast_u32 (address + 4)
               = if address <? 2 ^ 32 - 4 then address + 4 else address + 4 - 2 ^ 32).
  { unfold cast_u32.
    destruct (Z.ltb_spec address (2 ^ 32 - 4)).
    - apply Z.mod_small. lia.
    - symmetry. apply (Z.mod_unique_pos _ _ 1); lia. }
  split; [destruct (Z.ltb_spec address (2 ^ 32 - 4)); lia|].
  split; unfold_facade; change (sizeof W32) with 4; simpl; rewrite Hw; reflexivity.
Qed.

Lemma Size64_low_word_address_witness :
  is_u32 0xFFFFFFFC /\
  trace (run MMU_cpp.example_hardware (HostWrite W64 0x1122334455667788 0xFFFFFFFC)
           MMU_cpp.reset_machine)
  = [EvWriteToHardware NoException false 0xFFFFFFFC 0x11223344 4;
     EvWriteToHardware NoException false 0 0x55667788 4].
Proof.
  assert (Ha : is_u32 0xFFFFFFFC) by (unfold is_u32; lia).
  split; [exact Ha|].
  exact (proj1 (proj2 (Size64_low_word_address MMU_cpp.example_hardware
                         0x1122334455667788 0xFFFFFFFC MMU_cpp.reset_machine Ha))).
Defined.

Lemma Size64_guards_differ_witness :
  host_try_permitted MMU_cpp.example_hardware 0x017FFFFC Physical MMU_cpp.reset_machine
    = true /\
  is_Some (result (run MMU_cpp.example_hardware (HostTryRead W64 0x017FFFFC Physical)
                     MMU_cpp.reset_machine)).
Proof.
  assert (Hok : host_try_permitted MMU_cpp.example_hardware 0x017FFFFC Physical
                  MMU_cpp.reset_machine = true) by (vm_compute; reflexivity).
  split; [exact Hok|].
  exact (proj2 (proj1 (Size64_guards_differ MMU_cpp.example_hardware 0 0x017FFFFC Physical
                         MMU_cpp.reset_machine)) Hok).
Defined.
